(** * rounds/tutorial.py: the tutorial-round trading agent

    A shallow embedding of [Logger], [Product], [RainforestResin], [Kelp]
    and [Trader] from [src/rounds/tutorial.py], followed by the properties
    of the position-aware order policy and of the bounded logger.

    Python values are modelled as follows.
    - [int] is [Z] (unbounded); [//] is [Z.div] (floor division).
    - [str] is [string]; a character is a code point below 256.
    - [dict] is an association list in insertion order; a well-formed
      dict has pairwise distinct keys ([dict_ok]).
    - mutation and exceptions are threaded by the monad [M]: a raised
      exception keeps the state reached so far. *)

From Stdlib Require Import ZArith List String Ascii Bool Lia.
From Stdlib Require Import DecimalString.
Import ListNotations.

Local Open Scope string_scope.
Local Open Scope Z_scope.

(** ** Python built-ins used by the module *)

(** [str(z)] for an [int]. *)
Definition str_of_int (z : Z) : string :=
  NilZero.string_of_int (Z.to_int z).

(** [len(s)] for a [str]. *)
Definition len (s : string) : Z := Z.of_nat (String.length s).

(** [s[:k]]: the first [k] characters when [k >= 0]; all but the last
    [-k] characters when [k < 0]. *)
Definition slice_to (s : string) (k : Z) : string :=
  if 0 <=? k then substring 0 (Z.to_nat k) s
  else substring 0 (Z.to_nat (len s + k)) s.

(** [s.endswith(suffix)]. *)
Definition endswith (s suffix : string) : bool :=
  (String.length suffix <=? String.length s)%nat &&
  String.eqb
    (substring (String.length s - String.length suffix)
               (String.length suffix) s)
    suffix.

(** A string of [n] copies of [c]. *)
Fixpoint repeat_char (c : ascii) (n : nat) : string :=
  match n with
  | O => EmptyString
  | S n' => String c (repeat_char c n')
  end.

(** *** Dictionaries *)

Section Dict.
Context {K V : Type} (eqb : K -> K -> bool).

Definition dict := list (K * V).

Definition keys (d : dict) : list K := map fst d.
Definition values (d : dict) : list V := map snd d.

(** [d.get(k)] / [d[k]] *)
Fixpoint dict_get (d : dict) (k : K) : option V :=
  match d with
  | [] => None
  | (k', v) :: d' => if eqb k' k then Some v else dict_get d' k
  end.

(** [k in d] *)
Definition dict_mem (d : dict) (k : K) : bool :=
  match dict_get d k with Some _ => true | None => false end.

(** [d[k] = v]: replaces the value in place, or appends a new entry. *)
Fixpoint dict_set (d : dict) (k : K) (v : V) : dict :=
  match d with
  | [] => [(k, v)]
  | (k', v') :: d' =>
      if eqb k' k then (k', v) :: d' else (k', v') :: dict_set d' k v
  end.

(** Keys are pairwise distinct. *)
Definition dict_ok (d : dict) : Prop := NoDup (keys d).
End Dict.

Arguments dict : clear implicits.

(** [min(xs)] and [max(xs)] on a non-empty list of ints; [None] stands for
    the [ValueError] Python raises on an empty one. *)
Definition py_min (xs : list Z) : option Z :=
  match xs with
  | [] => None
  | x :: xs' => Some (fold_left Z.min xs' x)
  end.

Definition py_max (xs : list Z) : option Z :=
  match xs with
  | [] => None
  | x :: xs' => Some (fold_left Z.max xs' x)
  end.

(** ** Exceptions and state *)

Inductive exn : Type :=
| KeyError (key : string)
| ValueError (msg : string).

Inductive outcome (A : Type) : Type :=
| Returned (a : A)
| Raised (e : exn).

Arguments Returned {A} a.
Arguments Raised {A} e.

(** A computation over a mutable state [S]: the state after the call is
    returned in both outcomes. *)
Definition M (S A : Type) : Type := S -> outcome A * S.

Definition ret {S A} (a : A) : M S A := fun s => (Returned a, s).

Definition raise {S A} (e : exn) : M S A := fun s => (Raised e, s).

Definition bind {S A B} (m : M S A) (f : A -> M S B) : M S B :=
  fun s =>
    match m s with
    | (Returned a, s') => f a s'
    | (Raised e, s') => (Raised e, s')
    end.

Definition get {S} : M S S := fun s => (Returned s, s).

Definition modify {S} (f : S -> S) : M S unit := fun s => (Returned tt, f s).

Notation "x <- m ;; k" := (bind m (fun x => k))
  (at level 61, m at next level, right associativity).
Notation "m ;; k" := (bind m (fun _ => k))
  (at level 61, right associativity).

(** Runs a computation on the second component of a pair state. *)
Definition on_snd {X G A} (m : M G A) : M (X * G) A :=
  fun s =>
    match m (snd s) with
    | (o, g') => (o, (fst s, g'))
    end.

(** [for x in xs: body], with the locals the body rebinds threaded as
    [acc]. *)
Fixpoint for_loop {S A B} (xs : list A) (acc : B) (body : B -> A -> M S B)
  : M S B :=
  match xs with
  | [] => ret acc
  | x :: xs' => acc' <- body acc x ;; for_loop xs' acc' body
  end.

(** [d[k]] as an expression: raises [KeyError] on a missing key. *)
Definition getitem {S K V} (eqb : K -> K -> bool) (show : K -> string)
    (d : dict K V) (k : K) : M S V :=
  match dict_get eqb d k with
  | Some v => ret v
  | None => raise (KeyError (show k))
  end.

(** A built-in that raises [ValueError] on an empty argument. *)
Definition nonempty {S A} (o : option A) (msg : string) : M S A :=
  match o with
  | Some a => ret a
  | None => raise (ValueError msg)
  end.

(** ** The host's data model

    Modelled from the spec: the [datamodel] module ([Listing],
    [OrderDepth], [Trade], [Order], [Observation], [TradingState]) is
    imported by the source and is not part of it.  The records carry the
    fields the source reads, typed as section 3 of the specification
    describes them. *)

Abbreviation Symbol := string (only parsing).

(** A number the agent only forwards: an [int], or a [float] carried as
    the text [json.dumps] writes for it. *)
Inductive Number : Type :=
| NInt (z : Z)
| NFloat (repr : string).

Record Listing := {
  listing_symbol : Symbol;
  listing_product : string;
  listing_denomination : string
}.

Record OrderDepth := {
  buy_orders : dict Z Z;
  sell_orders : dict Z Z
}.

Record Trade := {
  trade_symbol : Symbol;
  trade_price : Z;
  trade_quantity : Z;
  trade_buyer : string;
  trade_seller : string;
  trade_timestamp : Z
}.

Record Order := {
  order_symbol : Symbol;
  order_price : Z;
  order_quantity : Z
}.

Record ConversionObservation := {
  bidPrice : Number;
  askPrice : Number;
  transportFees : Number;
  exportTariff : Number;
  importTariff : Number;
  sugarPrice : Number;
  sunlightIndex : Number
}.

Record Observation := {
  plainValueObservations : dict string Z;
  conversionObservations : dict string ConversionObservation
}.

Record TradingState := {
  traderData : string;
  timestamp : Z;
  listings : dict Symbol Listing;
  order_depths : dict Symbol OrderDepth;
  own_trades : dict Symbol (list Trade);
  market_trades : dict Symbol (list Trade);
  position : dict string Z;
  observations : Observation
}.

(** ** JSON

    [Any] is the fragment of Python values the logger builds: numbers,
    strings, lists, and dicts keyed by strings or ints. *)

Inductive Key : Type :=
| KStr (s : string)
| KInt (z : Z).

#[warnings="-register-all"]
Inductive Any : Type :=
| PyNum (n : Number)
| PyStr (s : string)
| PyList (l : list Any)
| PyDict (l : list (Key * Any)).

Definition PyInt (z : Z) : Any := PyNum (NInt z).

(** The double-quote character. *)
Definition dquote : ascii := "034"%char.

Definition hex_digit (n : N) : ascii :=
  if (n <? 10)%N then ascii_of_N (48 + n) else ascii_of_N (87 + n).

(** The text [json.dumps] (with [ensure_ascii]) writes for one character
    of a string, for the code points below 256 that [string] holds.
    (For a character from 256 on, which the model does not represent,
    [json.dumps] writes 6 or 12 characters; no statement below relies on
    an upper bound of the escaped size.) *)
Definition escape_char (c : ascii) : string :=
  let n := N_of_ascii c in
  if (n =? 34)%N then String "\" (String dquote EmptyString)
  else if (n =? 92)%N then "\\"
  else if (n =? 10)%N then "\n"
  else if (n =? 13)%N then "\r"
  else if (n =? 9)%N then "\t"
  else if (n =? 8)%N then "\b"
  else if (n =? 12)%N then "\f"
  else if ((32 <=? n) && (n <=? 126))%N then String c EmptyString
  else "\u00" ++
       String (hex_digit (n / 16)) (String (hex_digit (n mod 16)) EmptyString).

Fixpoint escape (s : string) : string :=
  match s with
  | EmptyString => EmptyString
  | String c s' => escape_char c ++ escape s'
  end.

Definition encode_str (s : string) : string :=
  String dquote (escape s ++ String dquote EmptyString).

Definition encode_num (n : Number) : string :=
  match n with
  | NInt z => str_of_int z
  | NFloat r => r
  end.

Definition encode_key (k : Key) : string :=
  match k with
  | KStr s => encode_str s
  | KInt z => encode_str (str_of_int z)
  end.

(** [json.dumps(value, separators=(",", ":"))] *)
Fixpoint dumps (v : Any) : string :=
  match v with
  | PyNum n => encode_num n
  | PyStr s => encode_str s
  | PyList l => "[" ++ String.concat "," (map dumps l) ++ "]"
  | PyDict l =>
      "{" ++ String.concat ","
               (map (fun kv => match kv with
                               | (k, x) => encode_key k ++ ":" ++ dumps x
                               end) l) ++ "}"
  end.

(** Views of typed containers as [Any]. *)
Definition any_list (l : list Any) : Any := PyList l.

Definition any_rows (l : list (list Any)) : Any := PyList (map PyList l).

Definition any_int_dict (d : dict Z Z) : Any :=
  PyDict (map (fun kv => (KInt (fst kv), PyInt (snd kv))) d).

Definition any_str_dict {V} (f : V -> Any) (d : dict string V) : Any :=
  PyDict (map (fun kv => (KStr (fst kv), f (snd kv))) d).

(** ** Process state *)

(** [sys.stdout]: the lines written so far, or a closed stream, on which
    the built-in [print] raises [ValueError]. *)
Inductive Stream : Type :=
| Open (lines : list string)
| Closed.

(** Ghost call log: every method that changes state appends its name on
    entry. *)
Inductive Event : Type :=
| LoggerPrint
| LoggerFlush
| ProductUpdate (id : string)
| ProductTrade (id : string).

Record LoggerObj := {
  logs : string;
  max_log_length : Z
}.

(** The module-level [logger], the standard output and the call log. *)
Record Runtime := {
  logger : LoggerObj;
  stdout : Stream;
  calls : list Event
}.

Definition record_call (e : Event) : M Runtime unit :=
  modify (fun rt =>
    {| logger := logger rt; stdout := stdout rt; calls := calls rt ++ [e] |}).

Definition set_logs (l : string) : M Runtime unit :=
  modify (fun rt =>
    {| logger := {| logs := l; max_log_length := max_log_length (logger rt) |};
       stdout := stdout rt; calls := calls rt |}).

(** The built-in [print(line)]. *)
Definition py_print (line : string) : M Runtime unit :=
  fun rt =>
    match stdout rt with
    | Open ls =>
        (Returned tt,
         {| logger := logger rt; stdout := Open (ls ++ [line]);
            calls := calls rt |})
    | Closed => (Raised (ValueError "I/O operation on closed file."), rt)
    end.

Definition newline : string := String "010"%char EmptyString.

(** ** class Logger *)

Module Logger.

(** [__init__] *)
Definition init : LoggerObj :=
  {| logs := EmptyString; max_log_length := 3750 |}.

(** [print] of its positional objects, with the default [sep] and [end]. *)
Definition print (objects : list string) : M Runtime unit :=
  record_call LoggerPrint ;;
  rt <- get ;;
  set_logs (logs (logger rt) ++ String.concat " " objects ++ newline).

Definition compress_listings (listings : dict Symbol Listing)
  : list (list Any) :=
  fold_left
    (fun compressed listing =>
       (compressed ++
        [[PyStr (listing_symbol listing); PyStr (listing_product listing);
          PyStr (listing_denomination listing)]])%list)
    (values listings) [].

Definition compress_order_depths (order_depths : dict Symbol OrderDepth)
  : dict Symbol (list Any) :=
  fold_left
    (fun compressed item =>
       match item with
       | (symbol, order_depth) =>
           dict_set String.eqb compressed symbol
             [any_int_dict (buy_orders order_depth);
              any_int_dict (sell_orders order_depth)]
       end)
    order_depths [].

Definition compress_trades (trades : dict Symbol (list Trade))
  : list (list Any) :=
  fold_left
    (fun compressed arr =>
       fold_left
         (fun compressed trade =>
            (compressed ++
             [[PyStr (trade_symbol trade); PyInt (trade_price trade);
               PyInt (trade_quantity trade); PyStr (trade_buyer trade);
               PyStr (trade_seller trade); PyInt (trade_timestamp trade)]])%list)
         arr compressed)
    (values trades) [].

Definition compress_observations (observations : Observation) : list Any :=
  let conversion_observations :=
    fold_left
      (fun acc item =>
         match item with
         | (product, observation) =>
             dict_set String.eqb acc product
               [PyNum (bidPrice observation); PyNum (askPrice observation);
                PyNum (transportFees observation);
                PyNum (exportTariff observation);
                PyNum (importTariff observation);
                PyNum (sugarPrice observation);
                PyNum (sunlightIndex observation)]
         end)
      (conversionObservations observations) [] in
  [any_str_dict PyInt (plainValueObservations observations);
   any_str_dict any_list conversion_observations].

Definition compress_orders (orders : dict Symbol (list Order))
  : list (list Any) :=
  fold_left
    (fun compressed arr =>
       fold_left
         (fun compressed order =>
            (compressed ++
             [[PyStr (order_symbol order); PyInt (order_price order);
               PyInt (order_quantity order)]])%list)
         arr compressed)
    (values orders) [].

Definition compress_state (state : TradingState) (trader_data : string)
  : list Any :=
  [PyInt (timestamp state);
   PyStr trader_data;
   any_rows (compress_listings (listings state));
   any_str_dict any_list (compress_order_depths (order_depths state));
   any_rows (compress_trades (own_trades state));
   any_rows (compress_trades (market_trades state));
   any_str_dict PyInt (position state);
   any_list (compress_observations (observations state))].

Definition to_json (value : Any) : string := dumps value.

Definition truncate (value : string) (max_length : Z) : string :=
  if len value <=? max_length then value
  else slice_to value (max_length - 3) ++ "...".

(** The envelope [flush] serializes, for given free-text fields. *)
Definition envelope (state : TradingState) (orders : dict Symbol (list Order))
    (conversions : Z) (state_data trader_data debug : string) : Any :=
  any_list
    [any_list (compress_state state state_data);
     any_rows (compress_orders orders);
     PyInt conversions;
     PyStr trader_data;
     PyStr debug].

Definition flush (state : TradingState) (orders : dict Symbol (list Order))
    (conversions : Z) (trader_data : string) : M Runtime unit :=
  record_call LoggerFlush ;;
  rt <- get ;;
  let self := logger rt in
  let base_length :=
    len (to_json (envelope state orders conversions
                    EmptyString EmptyString EmptyString)) in
  let max_item_length := (max_log_length self - base_length) / 3 in
  py_print
    (to_json
       (envelope state orders conversions
          (truncate (traderData state) max_item_length)
          (truncate trader_data max_item_length)
          (truncate (logs self) max_item_length))) ;;
  set_logs EmptyString.

End Logger.

(** ** class Product and its subclasses *)

(** The class of a policy object, on which [trade] is dispatched. *)
Inductive Class : Type :=
| ClsProduct
| ClsRainforestResin
| ClsKelp.

(** [state.position], named apart from the [position] attribute of a
    policy object. *)
Definition state_position (state : TradingState) : dict string Z :=
  position state.

Module Product.

Record t := {
  cls : Class;
  limit : Z;
  position : Z;
  id : string
}.

(** A method runs on its receiver and the process state. *)
Definition method (A : Type) : Type := M (t * Runtime) A.

Definition self : method t := fun s => (Returned (fst s), s).

Definition set_position (p : Z) : method unit :=
  modify (fun s =>
    ({| cls := cls (fst s); limit := limit (fst s); position := p;
        id := id (fst s) |}, snd s)).

(** [__init__(limit, id)] *)
Definition init (c : Class) (limit : Z) (id : string) : t :=
  {| cls := c; limit := limit; position := 0; id := id |}.

Definition update (state : TradingState) : method unit :=
  me <- self ;;
  on_snd (record_call (ProductUpdate (id me))) ;;
  if negb (dict_mem String.eqb (state_position state) (id me))
  then set_position 0
  else
    p <- getitem String.eqb (fun k => k) (state_position state)
           (id me) ;;
    set_position p.

Definition trade (state : TradingState) : method (list Order) :=
  me <- self ;;
  on_snd (record_call (ProductTrade (id me))) ;;
  ret [].

End Product.

Module RainforestResin.

Definition init : Product.t :=
  Product.init ClsRainforestResin 50 "RAINFOREST_RESIN".

Definition trade (state : TradingState) : Product.method (list Order) :=
  me <- Product.self ;;
  on_snd (record_call (ProductTrade (Product.id me))) ;;
  Product.update state ;;
  let orders : list Order := [] in
  me <- Product.self ;;
  order_depth <- getitem String.eqb (fun k => k) (order_depths state)
                   (Product.id me) ;;
  let fair_price := 10000 in
  orders <-
    (if negb (Nat.eqb (List.length (sell_orders order_depth)) 0) then
       best_ask <- nonempty (py_min (keys (sell_orders order_depth)))
                     "min() arg is an empty sequence" ;;
       v <- getitem Z.eqb str_of_int (sell_orders order_depth) best_ask ;;
       let best_ask_volume := -1 * v in
       if best_ask <? fair_price then
         me <- Product.self ;;
         let quantity :=
           Z.min best_ask_volume (Product.limit me - Product.position me) in
         on_snd (Logger.print
                   ["Buying " ++ str_of_int quantity ++ " " ++
                    Product.id me ++ " @ " ++ str_of_int best_ask]) ;;
         ret (orders ++
              [{| order_symbol := Product.id me; order_price := best_ask;
                  order_quantity := quantity |}])%list
       else ret orders
     else ret orders) ;;
  orders <-
    (if negb (Nat.eqb (List.length (buy_orders order_depth)) 0) then
       best_bid <- nonempty (py_max (keys (buy_orders order_depth)))
                     "max() arg is an empty sequence" ;;
       best_bid_volume <-
         getitem Z.eqb str_of_int (buy_orders order_depth) best_bid ;;
       if best_bid >? fair_price then
         me <- Product.self ;;
         let quantity :=
           Z.min best_bid_volume (Product.limit me + Product.position me) in
         on_snd (Logger.print
                   ["Selling " ++ str_of_int quantity ++ " " ++
                    Product.id me ++ " @ " ++ str_of_int best_bid]) ;;
         ret (orders ++
              [{| order_symbol := Product.id me; order_price := best_bid;
                  order_quantity := - quantity |}])%list
       else ret orders
     else ret orders) ;;
  ret orders.

End RainforestResin.

Module Kelp.

Definition init : Product.t := Product.init ClsKelp 50 "KELP".

Definition trade (state : TradingState) : Product.method (list Order) :=
  me <- Product.self ;;
  on_snd (record_call (ProductTrade (Product.id me))) ;;
  Product.update state ;;
  let orders : list Order := [] in
  ret orders.

End Kelp.

(** [obj.trade(state)]: the method of the receiver's class. *)
Definition call_trade (state : TradingState) : Product.method (list Order) :=
  me <- Product.self ;;
  match Product.cls me with
  | ClsProduct => Product.trade state
  | ClsRainforestResin => RainforestResin.trade state
  | ClsKelp => Kelp.trade state
  end.

(** ** class Trader *)

Module Trader.

(** The class attribute [products]. *)
Definition products : dict string Product.t :=
  [("RAINFOREST_RESIN", RainforestResin.init); ("KELP", Kelp.init)].

Definition method (A : Type) : Type := M (dict string Product.t * Runtime) A.

(** [self.products[key].m(...)]: runs [m] on the object stored under
    [key], which is updated in place. *)
Definition on_product {A} (key : string) (m : Product.method A) : method A :=
  fun s =>
    match dict_get String.eqb (fst s) key with
    | None => (Raised (KeyError key), s)
    | Some obj =>
        match m (obj, snd s) with
        | (o, (obj', rt')) => (o, (dict_set String.eqb (fst s) key obj', rt'))
        end
    end.

Definition run (state : TradingState)
  : method (dict Symbol (list Order) * Z * string) :=
  let result : dict Symbol (list Order) := [] in
  result <-
    for_loop (keys (order_depths state)) result
      (fun result product =>
         on_snd (Logger.print ["Processing product: " ++ product]) ;;
         s <- get ;;
         if dict_mem String.eqb (fst s) product then
           os <- on_product product (call_trade state) ;;
           ret (dict_set String.eqb result product os)
         else ret result) ;;
  let conversions := 1 in
  let trader_data := EmptyString in
  on_snd (Logger.flush state result conversions trader_data) ;;
  ret (result, conversions, trader_data).

End Trader.

(** ** Vocabulary of the statements *)

(** The lines written to standard output so far. *)
Definition emitted (rt : Runtime) : list string :=
  match stdout rt with
  | Open ls => ls
  | Closed => []
  end.

(** [base_length] of [flush]: the size of the envelope with its three
    free-text fields empty. *)
Definition base_length (state : TradingState)
    (orders : dict Symbol (list Order)) (conversions : Z) : Z :=
  len (Logger.to_json
         (Logger.envelope state orders conversions
            EmptyString EmptyString EmptyString)).

(** A tick with no listings, books, trades, positions or observations. *)
Definition empty_state (trader_data : string) : TradingState :=
  {| traderData := trader_data; timestamp := 0; listings := [];
     order_depths := []; own_trades := []; market_trades := [];
     position := [];
     observations :=
       {| plainValueObservations := []; conversionObservations := [] |} |}.

(** The process state at start-up, with [text] already buffered. *)
Definition runtime_with (text : string) (out : Stream) : Runtime :=
  {| logger := {| logs := text; max_log_length := 3750 |};
     stdout := out; calls := [] |}.

(** [traverse f xs]: all the results of [f], if none is missing. *)
Fixpoint traverse {A B} (f : A -> option B) (xs : list A) : option (list B) :=
  match xs with
  | [] => Some []
  | x :: xs' =>
      match f x, traverse f xs' with
      | Some y, Some ys => Some (y :: ys)
      | _, _ => None
      end
  end.

(** Reads a price-to-quantity mapping back from its [Any] view. *)
Definition decode_int_dict (a : Any) : option (dict Z Z) :=
  match a with
  | PyDict l =>
      traverse (fun kv => match kv with
                          | (KInt p, PyNum (NInt q)) => Some (p, q)
                          | _ => None
                          end) l
  | _ => None
  end.

(** The inverse of [Logger.compress_order_depths]. *)
Definition decompress_order_depths (compressed : dict Symbol (list Any))
  : option (dict Symbol OrderDepth) :=
  traverse (fun item => match item with
                        | (symbol, [b; s]) =>
                            match decode_int_dict b, decode_int_dict s with
                            | Some b', Some s' =>
                                Some (symbol,
                                      {| buy_orders := b'; sell_orders := s' |})
                            | _, _ => None
                            end
                        | _ => None
                        end) compressed.

(** A book with one resting bid and two resting asks. *)
Definition sample_depth : OrderDepth :=
  {| buy_orders := [(9995, 20)]; sell_orders := [(10005, -3); (9998, -10)] |}.

(** The position [update] stores: the tick's entry for [id], or 0. *)
Definition refreshed (state : TradingState) (id : string) : Z :=
  match dict_get String.eqb (position state) id with
  | Some p => p
  | None => 0
  end.

(** The receiver after [update]. *)
Definition updated (me : Product.t) (state : TradingState) : Product.t :=
  {| Product.cls := Product.cls me; Product.limit := Product.limit me;
     Product.position := refreshed state (Product.id me);
     Product.id := Product.id me |}.

(** The order the first [if] of [RainforestResin.trade] appends. *)
Definition buy_leg (me : Product.t) (order_depth : OrderDepth) : list Order :=
  match py_min (keys (sell_orders order_depth)) with
  | Some best_ask =>
      match dict_get Z.eqb (sell_orders order_depth) best_ask with
      | Some v =>
          if best_ask <? 10000 then
            [{| order_symbol := Product.id me; order_price := best_ask;
                order_quantity :=
                  Z.min (-1 * v) (Product.limit me - Product.position me) |}]
          else []
      | None => []
      end
  | None => []
  end.

(** The order the second [if] of [RainforestResin.trade] appends. *)
Definition sell_leg (me : Product.t) (order_depth : OrderDepth) : list Order :=
  match py_max (keys (buy_orders order_depth)) with
  | Some best_bid =>
      match dict_get Z.eqb (buy_orders order_depth) best_bid with
      | Some v =>
          if best_bid >? 10000 then
            [{| order_symbol := Product.id me; order_price := best_bid;
                order_quantity :=
                  - Z.min v (Product.limit me + Product.position me) |}]
          else []
      | None => []
      end
  | None => []
  end.

(** Worst-case fills: the total of the buy quantities and the total of
    the sell quantities of a list of orders. *)
Definition buy_total (orders : list Order) : Z :=
  fold_right (fun o acc => Z.max 0 (order_quantity o) + acc) 0 orders.

Definition sell_total (orders : list Order) : Z :=
  fold_right (fun o acc => Z.min 0 (order_quantity o) + acc) 0 orders.

(** Every resting quantity of a book carries the sign of its side. *)
Definition signed_book (order_depth : OrderDepth) : Prop :=
  (forall p q, In (p, q) (buy_orders order_depth) -> 0 <= q) /\
  (forall p q, In (p, q) (sell_orders order_depth) -> q <= 0).

(** The [RainforestResin] object holding position [p]. *)
Definition resin_at (p : Z) : Product.t :=
  {| Product.cls := ClsRainforestResin; Product.limit := 50;
     Product.position := p; Product.id := "RAINFOREST_RESIN" |}.

(** The [Kelp] object holding position [p]. *)
Definition kelp_at (p : Z) : Product.t :=
  {| Product.cls := ClsKelp; Product.limit := 50;
     Product.position := p; Product.id := "KELP" |}.

(** A tick with the given books and positions and nothing else. *)
Definition tick (books : dict Symbol OrderDepth) (pos : dict string Z)
  : TradingState :=
  {| traderData := EmptyString; timestamp := 0; listings := [];
     order_depths := books; own_trades := []; market_trades := [];
     position := pos;
     observations :=
       {| plainValueObservations := []; conversionObservations := [] |} |}.

(** A tick whose only book is RAINFOREST_RESIN's, with the given sides,
    and whose only position is RAINFOREST_RESIN's. *)
Definition resin_tick (bids asks : dict Z Z) (pos : Z) : TradingState :=
  tick [("RAINFOREST_RESIN", {| buy_orders := bids; sell_orders := asks |})]
       [("RAINFOREST_RESIN", pos)].

(** The class attribute [Trader.products] when the two policy objects
    hold positions [p1] and [p2]. *)
Definition registry (p1 p2 : Z) : dict string Product.t :=
  [("RAINFOREST_RESIN", resin_at p1); ("KELP", kelp_at p2)].

(** [symbol in Trader.products] *)
Definition registered (symbol : string) : bool :=
  dict_mem String.eqb Trader.products symbol.

(** The orders the policy registered for [symbol] returns when its
    [trade] is called on [state] in a fresh process. *)
Definition decided (state : TradingState) (symbol : string) : list Order :=
  match dict_get String.eqb Trader.products symbol with
  | Some policy =>
      match fst (call_trade state
                   (policy, runtime_with EmptyString (Open []))) with
      | Returned orders => orders
      | Raised _ => []
      end
  | None => []
  end.

(** The process state after [text] was logged and [events] recorded. *)
Definition advanced (rt : Runtime) (text : string) (events : list Event)
  : Runtime :=
  {| logger := {| logs := logs (logger rt) ++ text;
                  max_log_length := max_log_length (logger rt) |};
     stdout := stdout rt;
     calls := calls rt ++ events |}.

(** The calls one iteration of the loop of [Trader.run] makes. *)
Definition symbol_calls (state : TradingState) (symbol : string)
  : list Event :=
  LoggerPrint ::
  (if registered symbol then
     ProductTrade symbol :: ProductUpdate symbol ::
     map (fun _ => LoggerPrint) (decided state symbol)
   else []).

(** The body of the loop of [Trader.run]. *)
Definition run_body (state : TradingState)
    (result : dict Symbol (list Order)) (product : string)
  : Trader.method (dict Symbol (list Order)) :=
  on_snd (Logger.print ["Processing product: " ++ product]) ;;
  s <- get ;;
  if dict_mem String.eqb (fst s) product then
    os <- Trader.on_product product (call_trade state) ;;
    ret (dict_set String.eqb result product os)
  else ret result.

(** The number of calls of [trade] on the policy of [symbol]. *)
Definition trade_calls (symbol : string) (events : list Event) : nat :=
  List.length
    (filter (fun e => match e with
                      | ProductTrade s => String.eqb s symbol
                      | _ => false
                      end) events).

(** The number of calls of [Logger.flush]. *)
Definition flush_calls (events : list Event) : nat :=
  List.length
    (filter (fun e => match e with
                      | LoggerFlush => true
                      | _ => false
                      end) events).

(** A tick with books for the two registered symbols and for one the
    agent has no policy for. *)
Definition sample_tick : TradingState :=
  tick [("RAINFOREST_RESIN", sample_depth);
        ("KELP", {| buy_orders := []; sell_orders := [] |});
        ("SQUID_INK", {| buy_orders := [(1900, 5)]; sell_orders := [] |})]
       [("RAINFOREST_RESIN", 48)].

(** The line [flush] writes when the logger object is [self]. *)
Definition flush_line (state : TradingState)
    (orders : dict Symbol (list Order)) (conversions : Z)
    (trader_data : string) (self : LoggerObj) : string :=
  let max_item_length :=
    (max_log_length self - base_length state orders conversions) / 3 in
  Logger.to_json
    (Logger.envelope state orders conversions
       (Logger.truncate (traderData state) max_item_length)
       (Logger.truncate trader_data max_item_length)
       (Logger.truncate (logs self) max_item_length)).

(** The logger object with its buffer replaced by [text]. *)
Definition with_logs (self : LoggerObj) (text : string) : LoggerObj :=
  {| logs := text; max_log_length := max_log_length self |}.

(** Readers of the rows the logger builds. *)
Definition decode_order_row (row : list Any) : option Order :=
  match row with
  | [PyStr symbol; PyNum (NInt price); PyNum (NInt quantity)] =>
      Some {| order_symbol := symbol; order_price := price;
              order_quantity := quantity |}
  | _ => None
  end.

Definition decode_trade_row (row : list Any) : option Trade :=
  match row with
  | [PyStr symbol; PyNum (NInt price); PyNum (NInt quantity);
     PyStr buyer; PyStr seller; PyNum (NInt time)] =>
      Some {| trade_symbol := symbol; trade_price := price;
              trade_quantity := quantity; trade_buyer := buyer;
              trade_seller := seller; trade_timestamp := time |}
  | _ => None
  end.

Definition decode_listing_row (row : list Any) : option Listing :=
  match row with
  | [PyStr symbol; PyStr product; PyStr denomination] =>
      Some {| listing_symbol := symbol; listing_product := product;
              listing_denomination := denomination |}
  | _ => None
  end.

Definition decode_conversion_row (row : list Any)
  : option ConversionObservation :=
  match row with
  | [PyNum bid; PyNum ask; PyNum fees; PyNum export; PyNum import;
     PyNum sugar; PyNum sunlight] =>
      Some {| bidPrice := bid; askPrice := ask; transportFees := fees;
              exportTariff := export; importTariff := import;
              sugarPrice := sugar; sunlightIndex := sunlight |}
  | _ => None
  end.

(** Reads a dict with string keys back from its [Any] view. *)
Definition decode_str_dict {V} (f : Any -> option V) (a : Any)
  : option (dict string V) :=
  match a with
  | PyDict l =>
      traverse (fun kv => match kv with
                          | (KStr k, x) =>
                              match f x with
                              | Some v => Some (k, v)
                              | None => None
                              end
                          | _ => None
                          end) l
  | _ => None
  end.

Definition decode_int (a : Any) : option Z :=
  match a with
  | PyNum (NInt z) => Some z
  | _ => None
  end.

Definition decode_list (a : Any) : option (list Any) :=
  match a with
  | PyList l => Some l
  | _ => None
  end.

(** The inverse of [Logger.compress_observations]. *)
Definition decompress_observations (compressed : list Any)
  : option Observation :=
  match compressed with
  | [plain; conversion] =>
      match decode_str_dict decode_int plain,
            decode_str_dict
              (fun x => match decode_list x with
                        | Some row => decode_conversion_row row
                        | None => None
                        end) conversion with
      | Some p, Some c =>
          Some {| plainValueObservations := p; conversionObservations := c |}
      | _, _ => None
      end
  | _ => None
  end.

(** Observations with one plain value and one conversion record. *)
Definition sample_observations : Observation :=
  {| plainValueObservations := [("SUNLIGHT", 2500)];
     conversionObservations :=
       [("MAGNIFICENT_MACARONS",
         {| bidPrice := NFloat "627.0"; askPrice := NFloat "628.5";
            transportFees := NFloat "1.0"; exportTariff := NFloat "9.0";
            importTariff := NFloat "-3.0"; sugarPrice := NFloat "200.0";
            sunlightIndex := NInt 60 |})] |}.

(** A printable ASCII character: code 32 to 126. *)
Definition printable_char (c : ascii) : bool :=
  let n := N_of_ascii c in ((32 <=? n) && (n <=? 126))%N.

Fixpoint printable (s : string) : bool :=
  match s with
  | EmptyString => true
  | String c s' => printable_char c && printable s'
  end.

Definition number_printable (n : Number) : bool :=
  match n with
  | NInt _ => true
  | NFloat r => printable r
  end.

(** The text of every float of a value is printable. *)
Fixpoint any_printable (v : Any) : bool :=
  match v with
  | PyNum n => number_printable n
  | PyStr _ => true
  | PyList l => forallb any_printable l
  | PyDict l =>
      forallb (fun kv => match kv with (_, x) => any_printable x end) l
  end.

(** The text of every float among the tick's conversion observations is
    printable. *)
Definition floats_printable (state : TradingState) : bool :=
  forallb
    (fun item =>
       let o := snd item in
       number_printable (bidPrice o) && number_printable (askPrice o) &&
       number_printable (transportFees o) &&
       number_printable (exportTariff o) &&
       number_printable (importTariff o) &&
       number_printable (sugarPrice o) && number_printable (sunlightIndex o))
    (conversionObservations (observations state)).

(** Concatenation of log lines. *)
Definition join_lines (lines : list string) : string :=
  fold_right String.append EmptyString lines.

(** The line [RainforestResin.trade] logs for an order it returns: its
    buy orders are priced below 10000 and its sell orders above. *)
Definition order_line (o : Order) : string :=
  (if order_price o <? 10000
   then "Buying " ++ str_of_int (order_quantity o)
   else "Selling " ++ str_of_int (- order_quantity o))
  ++ " " ++ order_symbol o ++ " @ " ++ str_of_int (order_price o) ++ newline.

(** The text one iteration of the loop of [Trader.run] logs. *)
Definition symbol_text (state : TradingState) (symbol : string) : string :=
  ("Processing product: " ++ symbol) ++ newline ++
  (if registered symbol
   then join_lines (map order_line (decided state symbol))
   else EmptyString).

(** The position a policy object holds after the loop has visited
    [symbols], when it held [p] before. *)
Definition position_after (state : TradingState) (symbols : list string)
    (symbol : string) (p : Z) : Z :=
  if existsb (String.eqb symbol) symbols then refreshed state symbol else p.

(** The orders map, the debug text and the line of one call of
    [Trader.run], as functions of the tick. *)
Definition run_result (state : TradingState) : dict Symbol (list Order) :=
  fold_left
    (fun result symbol =>
       if registered symbol
       then dict_set String.eqb result symbol (decided state symbol)
       else result) (keys (order_depths state)) [].

Definition run_text (state : TradingState) : string :=
  join_lines (map (symbol_text state) (keys (order_depths state))).

Definition run_line (state : TradingState) (self : LoggerObj) : string :=
  flush_line state (run_result state) 1 EmptyString
    (with_logs self (logs self ++ run_text state)).

(** * Properties *)

(** ** Strings *)

Lemma length_append (a b : string) :
  String.length (a ++ b) = (String.length a + String.length b)%nat.
Proof.
  induction a as [|c a IH]; simpl; [reflexivity | now rewrite IH].
Qed.

Lemma append_empty_r (a : string) : a ++ EmptyString = a.
Proof.
  induction a as [|c a IH]; simpl; [reflexivity | now rewrite IH].
Qed.

Lemma append_assoc (a b c : string) : (a ++ b) ++ c = a ++ (b ++ c).
Proof.
  induction a as [|x a IH]; simpl; [reflexivity | now rewrite IH].
Qed.

Lemma len_append (a b : string) : len (a ++ b) = len a + len b.
Proof.
  unfold len. rewrite length_append. lia.
Qed.

Lemma len_nonneg (s : string) : 0 <= len s.
Proof.
  unfold len. lia.
Qed.

Lemma length_prefix (n : nat) (s : string) :
  String.length (substring 0 n s) = Nat.min n (String.length s).
Proof.
  revert n. induction s as [|c s IH]; intros [|n]; simpl; auto.
Qed.

Lemma substring_all (s : string) : substring 0 (String.length s) s = s.
Proof.
  induction s as [|c s IH]; simpl; [reflexivity | now rewrite IH].
Qed.

Lemma substring_skip (p q : string) :
  substring (String.length p) (String.length q) (p ++ q) = q.
Proof.
  induction p as [|c p IH]; simpl; [apply substring_all | exact IH].
Qed.

Lemma endswith_append (p q : string) : endswith (p ++ q) q = true.
Proof.
  unfold endswith. rewrite length_append.
  apply andb_true_intro. split.
  - apply Nat.leb_le. lia.
  - replace (String.length p + String.length q - String.length q)%nat
      with (String.length p) by lia.
    rewrite substring_skip. apply String.eqb_refl.
Qed.

(** The length of [s[:k]], for either sign of [k]. *)
Lemma len_slice_to (s : string) (k : Z) :
  len (slice_to s k) =
  if 0 <=? k then Z.min k (len s) else Z.max 0 (len s + k).
Proof.
  unfold slice_to, len.
  destruct (0 <=? k) eqn:E; rewrite length_prefix.
  - apply Z.leb_le in E. lia.
  - apply Z.leb_gt in E. lia.
Qed.

(** ** Logger.truncate *)

Lemma truncate_short (value : string) (max_length : Z) :
  len value <= max_length -> Logger.truncate value max_length = value.
Proof.
  intros H. unfold Logger.truncate.
  apply Z.leb_le in H. now rewrite H.
Qed.

Lemma truncate_long (value : string) (max_length : Z) :
  max_length < len value ->
  Logger.truncate value max_length = slice_to value (max_length - 3) ++ "...".
Proof.
  intros H. unfold Logger.truncate.
  apply Z.leb_gt in H. now rewrite H.
Qed.

(** A share of at least three units bounds the truncated text. *)
Lemma len_truncate_le (value : string) (max_length : Z) :
  3 <= max_length -> len (Logger.truncate value max_length) <= max_length.
Proof.
  intros Hm. destruct (Z_le_gt_dec (len value) max_length) as [H|H].
  - now rewrite truncate_short.
  - rewrite truncate_long by lia. rewrite len_append, len_slice_to.
    replace (0 <=? max_length - 3) with true by (symmetry; apply Z.leb_le; lia).
    change (len "...") with 3. lia.
Qed.

(** C5, as stated, fails: with a share of 2 the three-character text
    ["abc"] is longer than its share, yet [truncate] returns the
    five-character text ["ab..."]. *)
Lemma truncate_share_two_overflows :
  len "abc" > 2 /\
  Logger.truncate "abc" 2 = "ab..." /\
  len (Logger.truncate "abc" 2) <> 2.
Proof.
  repeat split; vm_compute; congruence.
Qed.

(** C5 (amended): a text no longer than its share is returned unchanged;
    for a share of at least 3, a text longer than its share is cut to
    exactly the share and ends with the ellipsis marker. *)
Theorem truncate_spec (value : string) (max_length : Z) :
  (len value <= max_length -> Logger.truncate value max_length = value) /\
  (3 <= max_length -> max_length < len value ->
   len (Logger.truncate value max_length) = max_length /\
   endswith (Logger.truncate value max_length) "..." = true).
Proof.
  split; [apply truncate_short|].
  intros Hm Hl. rewrite truncate_long by assumption. split.
  - rewrite len_append, len_slice_to.
    replace (0 <=? max_length - 3) with true by (symmetry; apply Z.leb_le; lia).
    change (len "...") with 3. lia.
  - apply endswith_append.
Qed.

Lemma truncate_spec_witness :
  Logger.truncate "abc" 5 = "abc" /\
  len (Logger.truncate "abcdefgh" 5) = 5 /\
  endswith (Logger.truncate "abcdefgh" 5) "..." = true.
Proof.
  split.
  - apply (proj1 (truncate_spec "abc" 5)). vm_compute. congruence.
  - apply (proj2 (truncate_spec "abcdefgh" 5)); vm_compute; congruence.
Defined.

(** ** JSON text of the envelope *)

Lemma len_String (c : ascii) (s : string) : len (String c s) = 1 + len s.
Proof.
  unfold len. simpl String.length. lia.
Qed.

Lemma len_encode_str (s : string) : len (encode_str s) = 2 + len (escape s).
Proof.
  unfold encode_str. rewrite len_String, len_append, len_String. 
  change (len EmptyString) with 0. lia.
Qed.

(** The three free-text fields enter the serialized envelope only
    through their escaped text. *)
Lemma len_envelope (state : TradingState) (orders : dict Symbol (list Order))
    (conversions : Z) (t1 t2 t3 : string) :
  len (Logger.to_json (Logger.envelope state orders conversions t1 t2 t3)) =
  len (Logger.to_json
         (Logger.envelope state orders conversions
            EmptyString EmptyString EmptyString))
  + len (escape t1) + len (escape t2) + len (escape t3).
Proof.
  unfold Logger.to_json, Logger.envelope, Logger.compress_state, any_list.
  generalize (any_rows (Logger.compress_listings (listings state))).
  generalize (any_str_dict (fun l => PyList l)
                (Logger.compress_order_depths (order_depths state))).
  generalize (any_rows (Logger.compress_trades (own_trades state))).
  generalize (any_rows (Logger.compress_trades (market_trades state))).
  generalize (any_str_dict PyInt (position state)).
  generalize (PyList (Logger.compress_observations (observations state))).
  generalize (any_rows (Logger.compress_orders orders)).
  generalize (PyInt conversions). generalize (PyInt (timestamp state)).
  intros a0 a1 a2 a3 a4 a5 a6 a7 a8.
  cbn [dumps map String.concat].
  repeat rewrite ?len_append, ?len_encode_str, ?len_String.
  change (escape EmptyString) with EmptyString.
  change (len EmptyString) with 0. lia.
Qed.

(** ** Logger.flush *)

(** On an open stream [flush] writes one line and clears the buffer. *)
Lemma flush_open (state : TradingState) (orders : dict Symbol (list Order))
    (conversions : Z) (trader_data : string) (rt : Runtime) (ls : list string) :
  stdout rt = Open ls ->
  let m := (max_log_length (logger rt)
            - base_length state orders conversions) / 3 in
  Logger.flush state orders conversions trader_data rt =
  (Returned tt,
   {| logger := {| logs := EmptyString;
                   max_log_length := max_log_length (logger rt) |};
      stdout :=
        Open (ls ++
              [Logger.to_json
                 (Logger.envelope state orders conversions
                    (Logger.truncate (traderData state) m)
                    (Logger.truncate trader_data m)
                    (Logger.truncate (logs (logger rt)) m))]);
      calls := calls rt ++ [LoggerFlush] |}).
Proof.
  intros H m.
  unfold Logger.flush, bind, record_call, modify, get, py_print, set_logs.
  cbn [stdout logger calls logs max_log_length]. rewrite H. reflexivity.
Qed.

(** On a closed stream [flush] raises before the buffer is reset. *)
Lemma flush_closed (state : TradingState) (orders : dict Symbol (list Order))
    (conversions : Z) (trader_data : string) (rt : Runtime) :
  stdout rt = Closed ->
  Logger.flush state orders conversions trader_data rt =
  (Raised (ValueError "I/O operation on closed file."),
   {| logger := logger rt; stdout := stdout rt;
      calls := calls rt ++ [LoggerFlush] |}).
Proof.
  intros H.
  unfold Logger.flush, bind, record_call, modify, get, py_print, set_logs.
  cbn [stdout logger calls logs max_log_length]. rewrite H. reflexivity.
Qed.

(** C2: the code does not keep the bound the claim states.  With 1300
    double quotes in each of the three free-text fields of an otherwise
    empty tick, the baseline is 42 and every field is cut to its share of
    1236 characters, so that the raw sizes add up to the budget of 3750;
    but each quote is serialized as two characters, and the line [flush]
    writes has 7449. *)
Lemma flush_line_exceeds_budget :
  let q := repeat_char dquote 1300 in
  max_log_length (logger (runtime_with q (Open []))) = 3750 /\
  base_length (empty_state q) [] 1 = 42 /\
  len (Logger.truncate q ((3750 - 42) / 3)) = 1236 /\
  42 + 3 * 1236 <= 3750 /\
  map len
    (emitted (snd (Logger.flush (empty_state q) [] 1 q
                     (runtime_with q (Open []))))) = [7449].
Proof.
  repeat split; vm_compute; congruence.
Qed.

(** C6, as stated, fails: when standard output is closed the built-in
    [print] raises inside [flush], and the buffered text is still there
    afterwards. *)
Lemma flush_keeps_logs_on_failure :
  Logger.flush (empty_state EmptyString) [] 1 EmptyString
    (runtime_with "stale" Closed) =
  (Raised (ValueError "I/O operation on closed file."),
   {| logger := {| logs := "stale"; max_log_length := 3750 |};
      stdout := Closed; calls := [LoggerFlush] |}).
Proof.
  reflexivity.
Qed.

(** C6 (amended): after a call to [flush] that returns, the debug buffer
    is empty, and [flush] returns whenever standard output is open; when
    emission raises, the exception leaves [flush] and the buffer keeps its
    text. *)
Theorem flush_clears_logs (state : TradingState)
    (orders : dict Symbol (list Order)) (conversions : Z)
    (trader_data : string) (rt : Runtime) :
  (forall ls, stdout rt = Open ls ->
     exists rt',
       Logger.flush state orders conversions trader_data rt =
       (Returned tt, rt')) /\
  match Logger.flush state orders conversions trader_data rt with
  | (Returned _, rt') => logs (logger rt') = EmptyString
  | (Raised _, rt') => logs (logger rt') = logs (logger rt)
  end.
Proof.
  split.
  - intros ls H. eexists. apply (flush_open _ _ _ _ _ _ H).
  - destruct (stdout rt) as [ls|] eqn:H.
    + rewrite (flush_open _ _ _ _ _ _ H). reflexivity.
    + rewrite (flush_closed _ _ _ _ _ H). reflexivity.
Qed.

Lemma flush_clears_logs_witness :
  exists rt',
    Logger.flush (empty_state EmptyString) [] 1 EmptyString
      (runtime_with "stale" (Open [])) = (Returned tt, rt').
Proof.
  apply (proj1 (flush_clears_logs (empty_state EmptyString) [] 1 EmptyString
                  (runtime_with "stale" (Open []))) []).
  reflexivity.
Defined.

(** ** Dictionaries *)

Section DictFacts.
Context {K V : Type} {eqb : K -> K -> bool}.
Hypothesis eqb_spec : forall a b : K, reflect (a = b) (eqb a b).

Lemma dict_set_fresh (d : dict K V) (k : K) (v : V) :
  ~ In k (keys d) -> dict_set eqb d k v = (d ++ [(k, v)])%list.
Proof.
  induction d as [|[k' v'] d IH]; simpl; intros H; [reflexivity|].
  destruct (eqb_spec k' k) as [E|_].
  - exfalso. apply H. now left.
  - rewrite IH; [reflexivity|]. intros Hin. apply H. now right.
Qed.

Lemma dict_get_in (d : dict K V) (k : K) :
  In k (keys d) -> exists v, dict_get eqb d k = Some v.
Proof.
  induction d as [|[k' v'] d IH]; simpl; intros H; [contradiction|].
  destruct (eqb_spec k' k) as [E|N].
  - now exists v'.
  - destruct H as [H|H]; [contradiction|]. now apply IH.
Qed.

Lemma dict_get_not_in (d : dict K V) (k : K) :
  ~ In k (keys d) -> dict_get eqb d k = None.
Proof.
  induction d as [|[k' v'] d IH]; simpl; intros H; [reflexivity|].
  destruct (eqb_spec k' k) as [E|N].
  - exfalso. apply H. now left.
  - apply IH. intros Hin. apply H. now right.
Qed.

Lemma dict_get_some_in (d : dict K V) (k : K) (v : V) :
  dict_get eqb d k = Some v -> In (k, v) d.
Proof.
  induction d as [|[k' v'] d IH]; simpl; intros H; [discriminate|].
  destruct (eqb_spec k' k) as [E|N].
  - left. congruence.
  - right. now apply IH.
Qed.
End DictFacts.

Section DictLoops.
Context {V W : Type}.

(** A loop that stores one entry per item of a well-formed dict
    rebuilds it entry by entry. *)
Lemma fold_dict_set (f : V -> W) (d : dict string V)
    (acc : dict string W) :
  NoDup (keys acc ++ keys d) ->
  fold_left (fun c item => match item with
                           | (k, v) => dict_set String.eqb c k (f v)
                           end) d acc =
  (acc ++ map (fun item => (fst item, f (snd item))) d)%list.
Proof.
  revert acc. induction d as [|[k v] d IH]; intros acc H;
    cbn [fold_left map fst snd].
  - now rewrite app_nil_r.
  - unfold keys in H. cbn [map fst] in H.
    rewrite (dict_set_fresh String.eqb_spec).
    + rewrite IH.
      * now rewrite <- app_assoc.
      * unfold keys. rewrite map_app. cbn [map fst].
        rewrite <- app_assoc. exact H.
    + apply NoDup_remove_2 in H. intros Hin. apply H.
      apply in_or_app. now left.
Qed.
End DictLoops.

(** ** Logger.compress_order_depths *)

Lemma compress_order_depths_map (order_depths : dict Symbol OrderDepth) :
  dict_ok order_depths ->
  Logger.compress_order_depths order_depths =
  map (fun item =>
         (fst item,
          [any_int_dict (buy_orders (snd item));
           any_int_dict (sell_orders (snd item))])) order_depths.
Proof.
  intros H. unfold Logger.compress_order_depths.
  now rewrite (fold_dict_set
                 (fun od => [any_int_dict (buy_orders od);
                             any_int_dict (sell_orders od)])).
Qed.

Lemma decode_any_int_dict (d : dict Z Z) :
  decode_int_dict (any_int_dict d) = Some d.
Proof.
  unfold decode_int_dict, any_int_dict.
  induction d as [|[p q] d IH]; simpl; [reflexivity|].
  simpl in IH. now rewrite IH.
Qed.

Lemma decompress_compress (order_depths : dict Symbol OrderDepth) :
  dict_ok order_depths ->
  decompress_order_depths (Logger.compress_order_depths order_depths) =
  Some order_depths.
Proof.
  intros H. rewrite compress_order_depths_map by assumption. clear H.
  unfold decompress_order_depths.
  induction order_depths as [|[symbol [b s]] d IH];
    cbn [map traverse fst snd buy_orders sell_orders]; [reflexivity|].
  rewrite !decode_any_int_dict. now rewrite IH.
Qed.

(** C7: the order books are recovered exactly from the output of
    [compress_order_depths], so the compression is injective. *)
Theorem compress_order_depths_lossless (a b : dict Symbol OrderDepth) :
  dict_ok a -> dict_ok b ->
  decompress_order_depths (Logger.compress_order_depths a) = Some a /\
  (Logger.compress_order_depths a = Logger.compress_order_depths b -> a = b).
Proof.
  intros Ha Hb. split; [now apply decompress_compress|].
  intros E.
  pose proof (decompress_compress a Ha) as Da.
  pose proof (decompress_compress b Hb) as Db.
  rewrite E in Da. congruence.
Qed.

Lemma compress_order_depths_lossless_witness :
  decompress_order_depths
    (Logger.compress_order_depths
       [("RAINFOREST_RESIN", sample_depth);
        ("KELP", {| buy_orders := []; sell_orders := [] |})]) =
  Some [("RAINFOREST_RESIN", sample_depth);
        ("KELP", {| buy_orders := []; sell_orders := [] |})].
Proof.
  assert (Hok : dict_ok [("RAINFOREST_RESIN", sample_depth);
                         ("KELP", {| buy_orders := []; sell_orders := [] |})]).
  { unfold dict_ok. simpl. repeat constructor; simpl; intuition discriminate. }
  exact (proj1 (compress_order_depths_lossless _ _ Hok Hok)).
Defined.

(** ** The monad *)

Lemma bind_returned {S A B} (m : M S A) (f : A -> M S B) (s s' : S) (a : A) :
  m s = (Returned a, s') -> bind m f s = f a s'.
Proof.
  intros H. unfold bind. now rewrite H.
Qed.

Lemma bind_raised {S A B} (m : M S A) (f : A -> M S B) (s s' : S) (e : exn) :
  m s = (Raised e, s') -> bind m f s = (Raised e, s').
Proof.
  intros H. unfold bind. now rewrite H.
Qed.

(** ** Best prices *)

Lemma fold_min_in (l : list Z) (x : Z) : In (fold_left Z.min l x) (x :: l).
Proof.
  revert x. induction l as [|a l IH]; intros x; simpl; [now left|].
  destruct (IH (Z.min x a)) as [H|H].
  - rewrite <- H. destruct (Z.min_spec x a) as [[_ E]|[_ E]]; rewrite E; auto.
  - now right; right.
Qed.

Lemma fold_max_in (l : list Z) (x : Z) : In (fold_left Z.max l x) (x :: l).
Proof.
  revert x. induction l as [|a l IH]; intros x; simpl; [now left|].
  destruct (IH (Z.max x a)) as [H|H].
  - rewrite <- H. destruct (Z.max_spec x a) as [[_ E]|[_ E]]; rewrite E; auto.
  - now right; right.
Qed.

(** The lowest key of a non-empty dict is one of its keys. *)
Lemma best_ask_found (d : dict Z Z) :
  d <> [] ->
  exists a v, py_min (keys d) = Some a /\ dict_get Z.eqb d a = Some v.
Proof.
  destruct d as [|[k q] d]; [congruence|]. intros _.
  unfold keys. cbn [map fst py_min].
  destruct (dict_get_in Z.eqb_spec ((k, q) :: d)
              (fold_left Z.min (map fst d) k)) as [v Hv].
  - apply (fold_min_in (map fst d) k).
  - eauto.
Qed.

Lemma best_bid_found (d : dict Z Z) :
  d <> [] ->
  exists b v, py_max (keys d) = Some b /\ dict_get Z.eqb d b = Some v.
Proof.
  destruct d as [|[k q] d]; [congruence|]. intros _.
  unfold keys. cbn [map fst py_max].
  destruct (dict_get_in Z.eqb_spec ((k, q) :: d)
              (fold_left Z.max (map fst d) k)) as [v Hv].
  - apply (fold_max_in (map fst d) k).
  - eauto.
Qed.

(** ** Product.update *)

Lemma update_returns (state : TradingState) (me : Product.t) (rt : Runtime) :
  Product.update state (me, rt) =
  (Returned tt,
   (updated me state,
    {| logger := logger rt; stdout := stdout rt;
       calls := calls rt ++ [ProductUpdate (Product.id me)] |})).
Proof.
  unfold Product.update, updated, refreshed, state_position, dict_mem, getitem,
    bind, Product.self, on_snd, record_call, modify, Product.set_position, ret.
  cbn [fst snd].
  destruct (dict_get String.eqb (position state) (Product.id me)); reflexivity.
Qed.

(** ** RainforestResin.trade *)

(** With a book for its symbol, [trade] refreshes the position, returns
    the buy leg followed by the sell leg, and logs one line per order. *)
Lemma resin_trade_returns (state : TradingState) (me : Product.t)
    (rt : Runtime) (od : OrderDepth) :
  dict_get String.eqb (order_depths state) (Product.id me) = Some od ->
  let me' := updated me state in
  let orders := (buy_leg me' od ++ sell_leg me' od)%list in
  exists text,
    RainforestResin.trade state (me, rt) =
    (Returned orders,
     (me',
      {| logger := {| logs := logs (logger rt) ++ text;
                      max_log_length := max_log_length (logger rt) |};
         stdout := stdout rt;
         calls := calls rt ++
                  ProductTrade (Product.id me) ::
                  ProductUpdate (Product.id me) ::
                  map (fun _ => LoggerPrint) orders |})).
Proof.
  intros Hod me' orders. subst orders.
  destruct rt as [[lg mx] out cs].
  unfold RainforestResin.trade.
  unfold bind at 1. unfold Product.self at 1.
  unfold bind at 1. unfold on_snd at 1, record_call at 1, modify at 1.
  cbn [fst snd logger stdout calls].
  unfold bind at 1. rewrite update_returns. fold me'.
  unfold bind at 1. unfold Product.self at 1.
  unfold bind at 1. unfold getitem at 1.
  cbn [fst snd logger stdout calls].
  change (Product.id me') with (Product.id me). rewrite Hod. unfold ret at 1.
  unfold buy_leg, sell_leg.
  destruct (sell_orders od) as [|a0 asks] eqn:Ea;
    [| destruct (best_ask_found (a0 :: asks)) as (a & v & Ha & Hv);
       [discriminate|] ];
  (destruct (buy_orders od) as [|b0 bids] eqn:Eb;
    [| destruct (best_bid_found (b0 :: bids)) as (b & w & Hb & Hw);
       [discriminate|] ]).
  all: rewrite ?Ha, ?Hv, ?Hb, ?Hw.
  all: cbn [keys map py_min py_max List.length Nat.eqb negb].
  all: cbv beta iota zeta delta
         [bind nonempty getitem ret Product.self on_snd Logger.print
          record_call modify get set_logs fst snd logger stdout calls logs
          max_log_length].
  all: rewrite ?Ha, ?Hv, ?Hb, ?Hw.
  all: cbv beta iota.
  all: try destruct (a <? 10000); try destruct (b >? 10000).
  all: cbv beta iota zeta delta
         [bind nonempty getitem ret Product.self on_snd Logger.print
          record_call modify get set_logs fst snd logger stdout calls logs
          max_log_length].
  all: cbn [app map]; rewrite <- ?app_assoc; cbn [app].
  all: try (exists EmptyString; rewrite append_empty_r; reflexivity).
  all: try (eexists; rewrite ?append_assoc; reflexivity).
Qed.

(** Without a book for its symbol, [trade] raises [KeyError] once the
    position is refreshed. *)
Lemma resin_trade_raises (state : TradingState) (me : Product.t)
    (rt : Runtime) :
  dict_get String.eqb (order_depths state) (Product.id me) = None ->
  RainforestResin.trade state (me, rt) =
  (Raised (KeyError (Product.id me)),
   (updated me state,
    {| logger := logger rt; stdout := stdout rt;
       calls := calls rt ++
                [ProductTrade (Product.id me);
                 ProductUpdate (Product.id me)] |})).
Proof.
  intros Hod.
  unfold RainforestResin.trade.
  unfold bind at 1. unfold Product.self at 1.
  unfold bind at 1. unfold on_snd at 1, record_call at 1, modify at 1.
  cbn [fst snd logger stdout calls].
  unfold bind at 1. rewrite update_returns.
  unfold bind at 1. unfold Product.self at 1.
  unfold bind at 1. unfold getitem at 1.
  cbn [fst snd logger stdout calls].
  change (Product.id (updated me state)) with (Product.id me). rewrite Hod.
  unfold raise. rewrite <- app_assoc. reflexivity.
Qed.

(** ** Worst-case fills *)

Lemma buy_total_app (xs ys : list Order) :
  buy_total (xs ++ ys) = buy_total xs + buy_total ys.
Proof.
  induction xs as [|o xs IH]; simpl; [reflexivity|]. rewrite IH. lia.
Qed.

Lemma sell_total_app (xs ys : list Order) :
  sell_total (xs ++ ys) = sell_total xs + sell_total ys.
Proof.
  induction xs as [|o xs IH]; simpl; [reflexivity|]. rewrite IH. lia.
Qed.

Section Legs.
Variables (me : Product.t) (od : OrderDepth).
Hypothesis Hbook : signed_book od.
Hypothesis Hpos :
  - Product.limit me <= Product.position me <= Product.limit me.

(** The buy leg buys at most the headroom below the limit and sells
    nothing. *)
Lemma buy_leg_bounds :
  0 <= buy_total (buy_leg me od) <= Product.limit me - Product.position me /\
  sell_total (buy_leg me od) = 0.
Proof.
  unfold buy_leg.
  destruct (py_min (keys (sell_orders od))) as [a|]; [|simpl; lia].
  destruct (dict_get Z.eqb (sell_orders od) a) as [v|] eqn:Hv; [|simpl; lia].
  destruct (a <? 10000); [|simpl; lia].
  apply (dict_get_some_in Z.eqb_spec) in Hv.
  apply (proj2 Hbook) in Hv.
  unfold buy_total, sell_total. cbn [fold_right order_quantity]. lia.
Qed.

(** The sell leg sells at most the headroom above minus the limit and
    buys nothing. *)
Lemma sell_leg_bounds :
  buy_total (sell_leg me od) = 0 /\
  - (Product.limit me + Product.position me) <= sell_total (sell_leg me od)
    <= 0.
Proof.
  unfold sell_leg.
  destruct (py_max (keys (buy_orders od))) as [b|]; [|simpl; lia].
  destruct (dict_get Z.eqb (buy_orders od) b) as [w|] eqn:Hw; [|simpl; lia].
  destruct (b >? 10000); [|simpl; lia].
  apply (dict_get_some_in Z.eqb_spec) in Hw.
  apply (proj1 Hbook) in Hw.
  unfold buy_total, sell_total. cbn [fold_right order_quantity]. lia.
Qed.
End Legs.

(** C1: when the refreshed position lies within the limit and the
    policy's book carries correctly signed quantities, the orders
    [RainforestResin.trade] returns cannot, even if all buys or all sells
    fill completely, move the position outside [[-limit, limit]]; and
    [trade] does return whenever the book is present. *)
Theorem resin_orders_within_limit (state : TradingState) (me : Product.t)
    (rt : Runtime) :
  - Product.limit me <= refreshed state (Product.id me) <= Product.limit me ->
  (forall od,
     dict_get String.eqb (order_depths state) (Product.id me) = Some od ->
     signed_book od) ->
  (forall orders s',
     RainforestResin.trade state (me, rt) = (Returned orders, s') ->
     refreshed state (Product.id me) + buy_total orders <= Product.limit me /\
     - Product.limit me <= refreshed state (Product.id me) + sell_total orders)
  /\
  (forall od,
     dict_get String.eqb (order_depths state) (Product.id me) = Some od ->
     exists orders s',
       RainforestResin.trade state (me, rt) = (Returned orders, s')).
Proof.
  intros Hpos Hbook. split.
  - intros orders s' Hrun.
    destruct (dict_get String.eqb (order_depths state) (Product.id me))
      as [od|] eqn:Hod.
    + destruct (resin_trade_returns state me rt od Hod) as [text E].
      cbv zeta in E. rewrite E in Hrun.
      injection Hrun as Horders _. subst orders.
      rewrite buy_total_app, sell_total_app.
      pose proof (buy_leg_bounds (updated me state) od (Hbook od eq_refl) Hpos).
      pose proof (sell_leg_bounds (updated me state) od (Hbook od eq_refl) Hpos).
      cbn [updated Product.limit Product.position] in *. lia.
    + rewrite (resin_trade_raises state me rt Hod) in Hrun. discriminate.
  - intros od Hod.
    destruct (resin_trade_returns state me rt od Hod) as [text E].
    eauto.
Qed.

Lemma resin_orders_within_limit_witness :
  exists orders s',
    RainforestResin.trade (resin_tick [(10002, 8)] [(9998, -10)] 48)
      (resin_at 0, runtime_with EmptyString (Open [])) = (Returned orders, s') /\
    48 + buy_total orders <= 50 /\ -50 <= 48 + sell_total orders.
Proof.
  assert (Hpos : - Product.limit (resin_at 0)
                 <= refreshed (resin_tick [(10002, 8)] [(9998, -10)] 48)
                      (Product.id (resin_at 0))
                 <= Product.limit (resin_at 0))
    by (vm_compute; split; congruence).
  assert (Hbook : forall od,
            dict_get String.eqb
              (order_depths (resin_tick [(10002, 8)] [(9998, -10)] 48))
              (Product.id (resin_at 0)) = Some od ->
            signed_book od).
  { intros od H. injection H as <-. split; intros p q [E|[]];
      injection E as <- <-; lia. }
  destruct (resin_orders_within_limit
              (resin_tick [(10002, 8)] [(9998, -10)] 48) (resin_at 0)
              (runtime_with EmptyString (Open [])) Hpos Hbook) as [Hb Hr].
  destruct (Hr _ eq_refl) as (orders & s' & E).
  exists orders, s'. split; [exact E|]. exact (Hb orders s' E).
Defined.

(** C3, as stated, fails: at position 50 with 10 units offered at 9998
    the computed buy quantity is [min 10 (50 - 50) = 0], and [trade]
    still returns a buy order, of quantity 0. *)
Lemma resin_trade_emits_zero_order :
  Z.min 10 (50 - 50) <= 0 /\
  fst (RainforestResin.trade (resin_tick [] [(9998, -10)] 50)
         (resin_at 0, runtime_with EmptyString (Open []))) =
  Returned [{| order_symbol := "RAINFOREST_RESIN"; order_price := 9998;
               order_quantity := 0 |}].
Proof.
  split; [vm_compute; congruence | reflexivity].
Qed.

(** C3 (amended): with a book for its symbol, [RainforestResin.trade]
    returns a buy order at the lowest ask whenever that ask is below
    10000, for [min (available ask quantity) (limit - position)], and a
    sell order at the highest bid whenever that bid is above 10000, for
    minus [min (available bid quantity) (limit + position)], whatever the
    sign of the computed quantity; it returns no other order. *)
Theorem resin_trade_emits_unfiltered (state : TradingState) (me : Product.t)
    (rt : Runtime) (od : OrderDepth) :
  dict_get String.eqb (order_depths state) (Product.id me) = Some od ->
  let pos := refreshed state (Product.id me) in
  let buy a v :=
    {| order_symbol := Product.id me; order_price := a;
       order_quantity := Z.min (- v) (Product.limit me - pos) |} in
  let sell b w :=
    {| order_symbol := Product.id me; order_price := b;
       order_quantity := - Z.min w (Product.limit me + pos) |} in
  let best_ask a v :=
    py_min (keys (sell_orders od)) = Some a /\
    dict_get Z.eqb (sell_orders od) a = Some v /\ a < 10000 in
  let best_bid b w :=
    py_max (keys (buy_orders od)) = Some b /\
    dict_get Z.eqb (buy_orders od) b = Some w /\ b > 10000 in
  exists orders s',
    RainforestResin.trade state (me, rt) = (Returned orders, s') /\
    (forall a v, best_ask a v -> In (buy a v) orders) /\
    (forall b w, best_bid b w -> In (sell b w) orders) /\
    (forall o, In o orders ->
       (exists a v, best_ask a v /\ o = buy a v) \/
       (exists b w, best_bid b w /\ o = sell b w)).
Proof.
  intros Hod pos buy sell best_ask best_bid.
  destruct (resin_trade_returns state me rt od Hod) as [text E].
  cbv zeta in E. eexists. eexists. split; [exact E|].
  assert (Hbuy : forall v : Z, Z.min (-1 * v) (Product.limit me - pos) =
                             Z.min (- v) (Product.limit me - pos))
    by (intros; f_equal; lia).
  unfold buy_leg, sell_leg.
  cbn [updated Product.id Product.limit Product.position]. fold pos.
  repeat split.
  - intros a v (Ha & Hv & Hlt). rewrite Ha, Hv.
    apply Z.ltb_lt in Hlt. rewrite Hlt. apply in_or_app. left.
    left. unfold buy. now rewrite Hbuy.
  - intros b w (Hb & Hw & Hgt). rewrite Hb, Hw.
    apply Z.gtb_gt in Hgt. rewrite Hgt. apply in_or_app. right. now left.
  - intros o Ho. apply in_app_or in Ho. destruct Ho as [Ho|Ho].
    + left.
      destruct (py_min (keys (sell_orders od))) as [a|] eqn:Ha;
        [|contradiction].
      destruct (dict_get Z.eqb (sell_orders od) a) as [v|] eqn:Hv;
        [|contradiction].
      destruct (a <? 10000) eqn:Hlt; [|contradiction].
      destruct Ho as [Ho|[]]. exists a, v. apply Z.ltb_lt in Hlt.
      split; [repeat split; auto|]. unfold buy. now rewrite <- Hbuy.
    + right.
      destruct (py_max (keys (buy_orders od))) as [b|] eqn:Hb;
        [|contradiction].
      destruct (dict_get Z.eqb (buy_orders od) b) as [w|] eqn:Hw;
        [|contradiction].
      destruct (b >? 10000) eqn:Hgt; [|contradiction].
      destruct Ho as [Ho|[]]. exists b, w. apply Z.gtb_gt in Hgt.
      split; [repeat split; auto|]. now subst o.
Qed.

Lemma resin_trade_emits_unfiltered_witness :
  exists orders s',
    RainforestResin.trade (resin_tick [] [(9998, -10)] 50)
      (resin_at 0, runtime_with EmptyString (Open [])) = (Returned orders, s') /\
    In {| order_symbol := "RAINFOREST_RESIN"; order_price := 9998;
          order_quantity := 0 |} orders.
Proof.
  destruct (resin_trade_emits_unfiltered (resin_tick [] [(9998, -10)] 50)
              (resin_at 0) (runtime_with EmptyString (Open []))
              {| buy_orders := []; sell_orders := [(9998, -10)] |} eq_refl)
    as (orders & s' & E & Hbuy & _).
  exists orders, s'. split; [exact E|].
  apply (Hbuy 9998 (-10)). repeat split.
Defined.

(** C9: with the lowest ask at 9998 for 10 units (encoded -10), position
    48 and limit 50, [RainforestResin.trade] proposes first a buy order at
    9998 for [min 10 (50 - 48) = 2] units. *)
Theorem resin_buy_clipped_to_headroom (state : TradingState) (stale : Z)
    (rt : Runtime) (od : OrderDepth) :
  dict_get String.eqb (order_depths state) "RAINFOREST_RESIN" = Some od ->
  py_min (keys (sell_orders od)) = Some 9998 ->
  dict_get Z.eqb (sell_orders od) 9998 = Some (-10) ->
  refreshed state "RAINFOREST_RESIN" = 48 ->
  exists rest s',
    RainforestResin.trade state (resin_at stale, rt) =
    (Returned ({| order_symbol := "RAINFOREST_RESIN"; order_price := 9998;
                  order_quantity := Z.min 10 (50 - 48) |} :: rest), s') /\
    Z.min 10 (50 - 48) = 2.
Proof.
  intros Hod Hmin Hget Hpos.
  destruct (resin_trade_returns state (resin_at stale) rt od Hod) as [text E].
  cbv zeta in E. rewrite E.
  unfold buy_leg.
  cbn [updated resin_at Product.id Product.limit Product.position].
  rewrite Hmin, Hget, Hpos.
  eexists. eexists. split; reflexivity.
Qed.

Lemma resin_buy_clipped_to_headroom_witness :
  exists rest s',
    RainforestResin.trade (resin_tick [] [(10001, -4); (9998, -10)] 48)
      (resin_at 0, runtime_with EmptyString (Open [])) =
    (Returned ({| order_symbol := "RAINFOREST_RESIN"; order_price := 9998;
                  order_quantity := Z.min 10 (50 - 48) |} :: rest), s') /\
    Z.min 10 (50 - 48) = 2.
Proof.
  apply (resin_buy_clipped_to_headroom
           (resin_tick [] [(10001, -4); (9998, -10)] 48) 0
           (runtime_with EmptyString (Open []))
           {| buy_orders := []; sell_orders := [(10001, -4); (9998, -10)] |});
    reflexivity.
Defined.

(** ** Kelp.trade and dispatch *)

Lemma advanced_advanced (rt : Runtime) (t1 t2 : string) (e1 e2 : list Event) :
  advanced (advanced rt t1 e1) t2 e2 = advanced rt (t1 ++ t2) (e1 ++ e2)%list.
Proof.
  unfold advanced. cbn [logger stdout calls logs max_log_length].
  now rewrite append_assoc, app_assoc.
Qed.

Lemma advanced_nothing (rt : Runtime) : advanced rt EmptyString [] = rt.
Proof.
  destruct rt as [[lg mx] out cs]. unfold advanced.
  cbn [logger stdout calls logs max_log_length].
  now rewrite append_empty_r, app_nil_r.
Qed.

Lemma print_returns (objects : list string) (rt : Runtime) :
  Logger.print objects rt =
  (Returned tt,
   advanced rt (String.concat " " objects ++ newline) [LoggerPrint]).
Proof.
  reflexivity.
Qed.

Lemma kelp_trade_returns (state : TradingState) (me : Product.t)
    (rt : Runtime) :
  Kelp.trade state (me, rt) =
  (Returned [],
   (updated me state,
    advanced rt EmptyString
      [ProductTrade (Product.id me); ProductUpdate (Product.id me)])).
Proof.
  destruct rt as [[lg mx] out cs].
  unfold Kelp.trade.
  unfold bind at 1. unfold Product.self at 1.
  unfold bind at 1. unfold on_snd at 1, record_call at 1, modify at 1.
  cbn [fst snd logger stdout calls].
  unfold bind at 1. rewrite update_returns.
  unfold ret, advanced. cbn [logger stdout calls logs max_log_length].
  now rewrite append_empty_r, <- app_assoc.
Qed.

Lemma call_trade_resin (state : TradingState) (p : Z) (rt : Runtime) :
  call_trade state (resin_at p, rt) =
  RainforestResin.trade state (resin_at p, rt).
Proof.
  reflexivity.
Qed.

Lemma call_trade_kelp (state : TradingState) (p : Z) (rt : Runtime) :
  call_trade state (kelp_at p, rt) = Kelp.trade state (kelp_at p, rt).
Proof.
  reflexivity.
Qed.

(** What the RAINFOREST_RESIN policy returns does not depend on the
    position it held before or on the process state. *)
Lemma resin_call_returns (state : TradingState) (p : Z) (rt : Runtime)
    (od : OrderDepth) :
  dict_get String.eqb (order_depths state) "RAINFOREST_RESIN" = Some od ->
  exists text,
    call_trade state (resin_at p, rt) =
    (Returned (decided state "RAINFOREST_RESIN"),
     (resin_at (refreshed state "RAINFOREST_RESIN"),
      advanced rt text
        (ProductTrade "RAINFOREST_RESIN" :: ProductUpdate "RAINFOREST_RESIN" ::
         map (fun _ => LoggerPrint) (decided state "RAINFOREST_RESIN")))).
Proof.
  intros Hod.
  assert (Hdec : decided state "RAINFOREST_RESIN" =
                 (buy_leg (resin_at (refreshed state "RAINFOREST_RESIN")) od ++
                  sell_leg (resin_at (refreshed state "RAINFOREST_RESIN")) od)
                 %list).
  { unfold decided.
    change (dict_get String.eqb Trader.products "RAINFOREST_RESIN")
      with (Some (resin_at 0)).
    cbv beta iota. rewrite call_trade_resin.
    destruct (resin_trade_returns state (resin_at 0)
                (runtime_with EmptyString (Open [])) od Hod) as [t E].
    cbv zeta in E. rewrite E. reflexivity. }
  rewrite call_trade_resin.
  destruct (resin_trade_returns state (resin_at p) rt od Hod) as [text E].
  cbv zeta in E. exists text. rewrite E, Hdec. reflexivity.
Qed.

Lemma kelp_call_returns (state : TradingState) (p : Z) (rt : Runtime) :
  call_trade state (kelp_at p, rt) =
  (Returned (decided state "KELP"),
   (kelp_at (refreshed state "KELP"),
    advanced rt EmptyString
      (ProductTrade "KELP" :: ProductUpdate "KELP" ::
       map (fun _ => LoggerPrint) (decided state "KELP")))).
Proof.
  assert (Hdec : decided state "KELP" = []).
  { unfold decided.
    change (dict_get String.eqb Trader.products "KELP")
      with (Some (kelp_at 0)).
    cbv beta iota. rewrite call_trade_kelp.
    now rewrite kelp_trade_returns. }
  rewrite call_trade_kelp.
  rewrite kelp_trade_returns, Hdec. reflexivity.
Qed.

Lemma registered_cases (symbol : string) :
  (symbol = "RAINFOREST_RESIN" /\ registered symbol = true) \/
  (symbol = "KELP" /\ registered symbol = true) \/
  (symbol <> "RAINFOREST_RESIN" /\ symbol <> "KELP" /\
   registered symbol = false /\
   forall p1 p2, dict_mem String.eqb (registry p1 p2) symbol = false).
Proof.
  destruct (String.eqb_spec "RAINFOREST_RESIN" symbol) as [E1|N1].
  - left. subst symbol. now split.
  - destruct (String.eqb_spec "KELP" symbol) as [E2|N2].
    + right. left. subst symbol. now split.
    + right. right.
      assert (H : forall p1 p2,
                dict_mem String.eqb (registry p1 p2) symbol = false).
      { intros p1 p2. unfold dict_mem, registry. cbn [dict_get].
        destruct (String.eqb_spec "RAINFOREST_RESIN" symbol); [contradiction|].
        destruct (String.eqb_spec "KELP" symbol); [contradiction|].
        reflexivity. }
      split; [congruence|]. split; [congruence|].
      split; [exact (H 0 0) | exact H].
Qed.

(** ** Trader.run *)

Lemma run_unfold (state : TradingState) :
  Trader.run state =
  (result <- for_loop (keys (order_depths state)) [] (run_body state) ;;
   on_snd (Logger.flush state result 1 EmptyString) ;;
   ret (result, 1, EmptyString)).
Proof.
  reflexivity.
Qed.

(** One iteration: the symbol is announced, and a registered policy is
    called once and its orders stored under the symbol. *)
Lemma run_body_returns (state : TradingState)
    (acc : dict Symbol (list Order)) (symbol : string) (p1 p2 : Z)
    (rt : Runtime) :
  In symbol (keys (order_depths state)) ->
  exists q1 q2 text,
    run_body state acc symbol (registry p1 p2, rt) =
    (Returned (if registered symbol
               then dict_set String.eqb acc symbol (decided state symbol)
               else acc),
     (registry q1 q2, advanced rt text (symbol_calls state symbol))).
Proof.
  intros Hin.
  unfold run_body. unfold bind at 1. unfold on_snd at 1.
  rewrite print_returns. cbn [fst snd].
  unfold bind at 1, get at 1. cbn [fst].
  destruct (registered_cases symbol)
    as [[-> Hreg]|[[-> Hreg]|(N1 & N2 & Hreg & Hmem)]];
    unfold symbol_calls; rewrite Hreg.
  - destruct (dict_get_in String.eqb_spec _ _ Hin) as [od Hod].
    change (dict_mem String.eqb (registry p1 p2) "RAINFOREST_RESIN") with true.
    cbv iota. unfold bind at 1. unfold Trader.on_product.
    cbn [fst snd].
    change (dict_get String.eqb (registry p1 p2) "RAINFOREST_RESIN")
      with (Some (resin_at p1)).
    cbv iota.
    destruct (resin_call_returns state p1
                (advanced rt
                   (String.concat " "
                      ["Processing product: " ++ "RAINFOREST_RESIN"] ++ newline)
                   [LoggerPrint]) od Hod) as [text E].
    rewrite E. rewrite advanced_advanced. unfold ret.
    exists (refreshed state "RAINFOREST_RESIN"), p2. eexists. reflexivity.
  - change (dict_mem String.eqb (registry p1 p2) "KELP") with true.
    cbv iota. unfold bind at 1. unfold Trader.on_product.
    cbn [fst snd].
    change (dict_get String.eqb (registry p1 p2) "KELP")
      with (Some (kelp_at p2)).
    cbv iota. rewrite kelp_call_returns, advanced_advanced. unfold ret.
    exists p1, (refreshed state "KELP"). eexists. reflexivity.
  - rewrite Hmem. unfold ret. exists p1, p2. eexists. reflexivity.
Qed.

(** The loop visits the symbols in order; the registry keeps its two
    policy objects and standard output is not touched. *)
Lemma run_loop_returns (state : TradingState) (symbols : list string) :
  (forall symbol, In symbol symbols ->
                  In symbol (keys (order_depths state))) ->
  forall (acc : dict Symbol (list Order)) (p1 p2 : Z) (rt : Runtime),
  exists q1 q2 text,
    for_loop symbols acc (run_body state) (registry p1 p2, rt) =
    (Returned
       (fold_left
          (fun result symbol =>
             if registered symbol
             then dict_set String.eqb result symbol (decided state symbol)
             else result) symbols acc),
     (registry q1 q2,
      advanced rt text (flat_map (symbol_calls state) symbols))).
Proof.
  induction symbols as [|symbol symbols IH]; intros Hin acc p1 p2 rt.
  - exists p1, p2, EmptyString. cbn [for_loop fold_left flat_map].
    now rewrite advanced_nothing.
  - cbn [for_loop fold_left flat_map].
    destruct (run_body_returns state acc symbol p1 p2 rt)
      as (r1 & r2 & t1 & E1); [apply Hin; now left|].
    rewrite (bind_returned _ _ _ _ _ E1). cbv beta.
    destruct (IH (fun s H => Hin s (or_intror H))
                (if registered symbol
                 then dict_set String.eqb acc symbol (decided state symbol)
                 else acc) r1 r2
                (advanced rt t1 (symbol_calls state symbol)))
      as (q1 & q2 & t2 & E2).
    exists q1, q2, (t1 ++ t2).
    eapply eq_trans; [exact E2|]. now rewrite advanced_advanced.
Qed.

(** Over distinct symbols, the loop stores one entry per registered
    symbol, in order. *)
Lemma fold_registered {V : Type} (f : string -> V) (symbols : list string) :
  forall acc : dict string V,
  NoDup (keys acc ++ symbols) ->
  fold_left
    (fun result symbol =>
       if registered symbol
       then dict_set String.eqb result symbol (f symbol)
       else result) symbols acc =
  (acc ++ map (fun symbol => (symbol, f symbol))
            (filter registered symbols))%list.
Proof.
  induction symbols as [|k symbols IH]; intros acc H;
    cbn [fold_left filter].
  - now rewrite app_nil_r.
  - destruct (registered k).
    + rewrite (dict_set_fresh String.eqb_spec).
      * rewrite IH.
        -- cbn [map]. now rewrite <- app_assoc.
        -- unfold keys. rewrite map_app. cbn [map fst].
           now rewrite <- app_assoc.
      * apply NoDup_remove_2 in H. intros Hin. apply H.
        apply in_or_app. now left.
    + apply IH. now apply NoDup_remove_1 in H.
Qed.

Lemma trade_calls_app (symbol : string) (xs ys : list Event) :
  trade_calls symbol (xs ++ ys) =
  (trade_calls symbol xs + trade_calls symbol ys)%nat.
Proof.
  unfold trade_calls. now rewrite filter_app, length_app.
Qed.

Lemma flush_calls_app (xs ys : list Event) :
  flush_calls (xs ++ ys) = (flush_calls xs + flush_calls ys)%nat.
Proof.
  unfold flush_calls. now rewrite filter_app, length_app.
Qed.

Lemma trade_calls_prints {A : Type} (symbol : string) (xs : list A) :
  trade_calls symbol (map (fun _ => LoggerPrint) xs) = 0%nat.
Proof.
  induction xs as [|x xs IH]; [reflexivity | exact IH].
Qed.

Lemma flush_calls_prints {A : Type} (xs : list A) :
  flush_calls (map (fun _ => LoggerPrint) xs) = 0%nat.
Proof.
  induction xs as [|x xs IH]; [reflexivity | exact IH].
Qed.

(** One iteration calls [trade] on the policy of its own symbol only,
    once, and only when that symbol is registered. *)
Lemma trade_calls_symbol (state : TradingState) (symbol k : string) :
  trade_calls symbol (symbol_calls state k) =
  if registered k && String.eqb k symbol then 1%nat else 0%nat.
Proof.
  unfold symbol_calls. destruct (registered k); [|reflexivity].
  pose proof (trade_calls_prints symbol (decided state k)) as H.
  unfold trade_calls in *. cbn [filter andb].
  destruct (String.eqb k symbol); cbn [List.length]; now rewrite H.
Qed.

Lemma flush_calls_symbols (state : TradingState) (symbols : list string) :
  flush_calls (flat_map (symbol_calls state) symbols) = 0%nat.
Proof.
  induction symbols as [|k symbols IH]; [reflexivity|].
  cbn [flat_map]. rewrite flush_calls_app, IH. unfold symbol_calls.
  destruct (registered k); [|reflexivity].
  change (flush_calls
            (LoggerPrint :: ProductTrade k :: ProductUpdate k ::
             map (fun _ => LoggerPrint) (decided state k)))
    with (flush_calls (map (fun _ => LoggerPrint) (decided state k))).
  now rewrite flush_calls_prints.
Qed.

Lemma trade_calls_absent (state : TradingState) (symbol : string)
    (symbols : list string) :
  ~ In symbol symbols \/ registered symbol = false ->
  trade_calls symbol (flat_map (symbol_calls state) symbols) = 0%nat.
Proof.
  intros H. induction symbols as [|k symbols IH]; [reflexivity|].
  cbn [flat_map]. rewrite trade_calls_app, trade_calls_symbol, IH.
  - destruct (String.eqb_spec k symbol) as [->|N].
    + destruct H as [H|H]; [exfalso; apply H; now left|].
      now rewrite H.
    + now rewrite andb_false_r.
  - destruct H as [H|H]; [left|now right].
    intros Hin. apply H. now right.
Qed.

Lemma trade_calls_once (state : TradingState) (symbol : string)
    (symbols : list string) :
  NoDup symbols -> In symbol symbols -> registered symbol = true ->
  trade_calls symbol (flat_map (symbol_calls state) symbols) = 1%nat.
Proof.
  intros Hnd Hin Hreg. induction symbols as [|k symbols IH]; [contradiction|].
  cbn [flat_map]. rewrite trade_calls_app, trade_calls_symbol.
  inversion Hnd as [|k' l' Hk Hnd']; subst.
  destruct (String.eqb_spec k symbol) as [->|N].
  - rewrite Hreg. cbn [andb].
    rewrite trade_calls_absent; [reflexivity | now left].
  - rewrite andb_false_r. destruct Hin as [Hin|Hin]; [contradiction|].
    now rewrite IH.
Qed.

(** The result the loop of [Trader.run] builds. *)
Lemma run_returns (state : TradingState) (p1 p2 : Z) (rt : Runtime)
    (ls : list string) :
  stdout rt = Open ls ->
  exists q1 q2 line,
    Trader.run state (registry p1 p2, rt) =
    (Returned
       (fold_left
          (fun result symbol =>
             if registered symbol
             then dict_set String.eqb result symbol (decided state symbol)
             else result) (keys (order_depths state)) [],
        1, EmptyString),
     (registry q1 q2,
      {| logger := {| logs := EmptyString;
                      max_log_length := max_log_length (logger rt) |};
         stdout := Open (ls ++ [line]);
         calls := calls rt ++
                  flat_map (symbol_calls state) (keys (order_depths state)) ++
                  [LoggerFlush] |})).
Proof.
  intros Hout. rewrite run_unfold.
  destruct (run_loop_returns state (keys (order_depths state))
              (fun _ H => H) [] p1 p2 rt) as (q1 & q2 & text & E).
  exists q1, q2. eexists.
  eapply eq_trans; [apply (bind_returned _ _ _ _ _ E)|]. cbv beta.
  unfold bind at 1. unfold on_snd at 1. cbn [fst snd].
  pose proof (flush_open state
                (fold_left
                   (fun result symbol =>
                      if registered symbol
                      then dict_set String.eqb result symbol
                             (decided state symbol)
                      else result) (keys (order_depths state)) [])
                1 EmptyString
                (advanced rt text
                   (flat_map (symbol_calls state) (keys (order_depths state))))
                ls Hout) as F.
  cbv zeta in F. rewrite F. unfold ret.
  cbn [advanced logger stdout calls logs max_log_length].
  rewrite <- app_assoc. reflexivity.
Qed.

(** With standard output closed, [Trader.run] raises in [flush]. *)
Lemma run_raises (state : TradingState) (p1 p2 : Z) (rt : Runtime) :
  stdout rt = Closed ->
  exists e s', Trader.run state (registry p1 p2, rt) = (Raised e, s').
Proof.
  intros Hout. rewrite run_unfold.
  destruct (run_loop_returns state (keys (order_depths state))
              (fun _ H => H) [] p1 p2 rt) as (q1 & q2 & text & E).
  eexists. eexists.
  eapply eq_trans; [apply (bind_returned _ _ _ _ _ E)|]. cbv beta.
  unfold bind at 1. unfold on_snd at 1. cbn [fst snd].
  rewrite flush_closed by exact Hout. reflexivity.
Qed.

(** C8: over the symbols of the tick's order books, [Trader.run] calls
    [trade] (which refreshes the position before deciding) exactly once
    on each registered policy, stores what it returns under the symbol,
    leaves out unregistered symbols, and calls [flush] once, as its last
    call. *)
Theorem run_dispatches_once_then_flushes (state : TradingState) (p1 p2 : Z)
    (rt : Runtime) (ls : list string) :
  dict_ok (order_depths state) ->
  stdout rt = Open ls ->
  exists result s' made line,
    Trader.run state (registry p1 p2, rt) =
    (Returned (result, 1, EmptyString), s') /\
    result = map (fun symbol => (symbol, decided state symbol))
               (filter registered (keys (order_depths state))) /\
    calls (snd s') = (calls rt ++ made ++ [LoggerFlush])%list /\
    made = flat_map (symbol_calls state) (keys (order_depths state)) /\
    flush_calls made = 0%nat /\
    (forall symbol,
       In symbol (keys (order_depths state)) -> registered symbol = true ->
       trade_calls symbol made = 1%nat /\ In symbol (keys result)) /\
    (forall symbol,
       registered symbol = false ->
       trade_calls symbol made = 0%nat /\ ~ In symbol (keys result)) /\
    stdout (snd s') = Open (ls ++ [line]).
Proof.
  intros Hok Hout.
  destruct (run_returns state p1 p2 rt ls Hout) as (q1 & q2 & line & E).
  rewrite (fold_registered (decided state)) in E by exact Hok.
  cbn [app] in E.
  assert (Hkeys : forall symbol,
            In symbol
              (keys (map (fun symbol => (symbol, decided state symbol))
                      (filter registered (keys (order_depths state))))) <->
            In symbol (keys (order_depths state)) /\
            registered symbol = true).
  { intros symbol. unfold keys at 1. rewrite map_map. cbn [fst].
    rewrite map_id. apply filter_In. }
  eexists. eexists. exists (flat_map (symbol_calls state)
                              (keys (order_depths state))), line.
  split; [exact E|]. split; [reflexivity|]. split; [reflexivity|].
  split; [reflexivity|]. split; [apply flush_calls_symbols|].
  split; [|split; [|reflexivity]].
  - intros symbol Hin Hreg. split.
    + now apply trade_calls_once.
    + apply Hkeys. now split.
  - intros symbol Hreg. split.
    + apply trade_calls_absent. now right.
    + intros Hin. apply Hkeys in Hin. destruct Hin as [_ Hin]. congruence.
Qed.

Lemma run_dispatches_once_then_flushes_witness :
  exists result s',
    Trader.run sample_tick
      (Trader.products, runtime_with EmptyString (Open [])) =
    (Returned (result, 1, EmptyString), s') /\
    keys result = ["RAINFOREST_RESIN"; "KELP"] /\
    trade_calls "KELP" (calls (snd s')) = 1%nat.
Proof.
  assert (Hok : dict_ok (order_depths sample_tick)).
  { unfold dict_ok. cbn. repeat constructor; cbn; intuition discriminate. }
  destruct (run_dispatches_once_then_flushes sample_tick 0 0
              (runtime_with EmptyString (Open [])) [] Hok eq_refl)
    as (result & s' & made & line & E & Hres & Hcalls & _ & _ & Honce & _).
  exists result, s'. split; [exact E|]. split.
  - rewrite Hres. reflexivity.
  - rewrite Hcalls. cbn [runtime_with calls app].
    rewrite trade_calls_app.
    rewrite (proj1 (Honce "KELP" (or_intror (or_introl eq_refl)) eq_refl)).
    reflexivity.
Defined.

(** C10: whatever the tick, [Trader.run] returns the conversion count 1
    and the empty trader-state string, and it does return whenever
    standard output is open. *)
Theorem run_constant_conversions_and_data (state : TradingState) (p1 p2 : Z)
    (rt : Runtime) :
  (forall result conversions trader_data s',
     Trader.run state (registry p1 p2, rt) =
     (Returned (result, conversions, trader_data), s') ->
     conversions = 1 /\ trader_data = EmptyString) /\
  (forall ls,
     stdout rt = Open ls ->
     exists result s',
       Trader.run state (registry p1 p2, rt) =
       (Returned (result, 1, EmptyString), s')).
Proof.
  split.
  - intros result conversions trader_data s' Hrun.
    destruct (stdout rt) as [ls|] eqn:Hout.
    + destruct (run_returns state p1 p2 rt ls Hout) as (q1 & q2 & line & E).
      rewrite E in Hrun. injection Hrun as _ <- <- _. now split.
    + destruct (run_raises state p1 p2 rt Hout) as (e & s0 & E).
      rewrite E in Hrun. discriminate.
  - intros ls Hout.
    destruct (run_returns state p1 p2 rt ls Hout) as (q1 & q2 & line & E).
    eauto.
Qed.

Lemma run_constant_conversions_and_data_witness :
  exists result s',
    Trader.run sample_tick
      (Trader.products, runtime_with EmptyString (Open [])) =
    (Returned (result, 1, EmptyString), s').
Proof.
  exact (proj2 (run_constant_conversions_and_data sample_tick 0 0
                  (runtime_with EmptyString (Open []))) [] eq_refl).
Defined.

(** C4, as stated, fails: on a tick with no order book at all,
    [RainforestResin.trade] raises [KeyError] instead of returning an
    empty list. *)
Lemma resin_trade_fails_without_book :
  dict_get String.eqb (order_depths (tick [] [])) "RAINFOREST_RESIN" = None /\
  fst (RainforestResin.trade (tick [] [])
         (resin_at 0, runtime_with EmptyString (Open []))) =
  Raised (KeyError "RAINFOREST_RESIN").
Proof.
  split; reflexivity.
Qed.

(** C4 (amended): on a tick with no order book for the policy's symbol,
    [RainforestResin.trade] raises [KeyError] after [update] has run: the
    policy is left holding the tick's position for its symbol (0 when the
    tick lists none), with its limit and symbol, the debug buffer and
    standard output unchanged.  [Trader.run] does not call it on such a
    tick, since it dispatches on the symbols of the order books, and
    returns normally. *)
Theorem resin_trade_missing_book (state : TradingState) (me : Product.t)
    (rt : Runtime) :
  dict_get String.eqb (order_depths state) (Product.id me) = None ->
  (exists me' rt',
     RainforestResin.trade state (me, rt) =
     (Raised (KeyError (Product.id me)), (me', rt')) /\
     Product.position me' =
       match dict_get String.eqb (position state) (Product.id me) with
       | Some p => p
       | None => 0
       end /\
     Product.limit me' = Product.limit me /\
     Product.id me' = Product.id me /\
     logger rt' = logger rt /\ stdout rt' = stdout rt /\
     calls rt' =
     (calls rt ++
      [ProductTrade (Product.id me); ProductUpdate (Product.id me)])%list) /\
  (forall p1 p2 ls,
     stdout rt = Open ls ->
     exists out s' made,
       Trader.run state (registry p1 p2, rt) = (Returned out, s') /\
       calls (snd s') = (calls rt ++ made)%list /\
       trade_calls (Product.id me) made = 0%nat).
Proof.
  intros Hod. split.
  - do 2 eexists. split; [apply (resin_trade_raises state me rt Hod)|].
    repeat split.
  - intros p1 p2 ls Hout.
    destruct (run_returns state p1 p2 rt ls Hout) as (q1 & q2 & line & E).
    eexists. eexists. eexists. split; [exact E|]. split; [reflexivity|].
    rewrite trade_calls_app, trade_calls_absent; [reflexivity|].
    left. intros Hin.
    destruct (dict_get_in String.eqb_spec _ _ Hin) as [od Hsome].
    congruence.
Qed.

Lemma resin_trade_missing_book_witness :
  exists me' rt',
    RainforestResin.trade
      (tick [("KELP", {| buy_orders := []; sell_orders := [] |})]
            [("RAINFOREST_RESIN", 7)])
      (resin_at 0, runtime_with EmptyString (Open [])) =
    (Raised (KeyError "RAINFOREST_RESIN"), (me', rt')) /\
    Product.position me' = 7.
Proof.
  destruct (proj1 (resin_trade_missing_book
                     (tick [("KELP", {| buy_orders := []; sell_orders := [] |})]
                           [("RAINFOREST_RESIN", 7)])
                     (resin_at 0) (runtime_with EmptyString (Open []))
                     eq_refl))
    as (me' & rt' & E & Hpos & _).
  exists me', rt'. split; [exact E | exact Hpos].
Defined.

(** * Further properties *)

(** ** Logger.truncate, continued *)

(** For a share of at least 3 the result has length
    [min (len value) max_length], and truncating it again changes
    nothing. *)
Theorem truncate_length_idempotent (value : string) (max_length : Z) :
  3 <= max_length ->
  len (Logger.truncate value max_length) = Z.min (len value) max_length /\
  Logger.truncate (Logger.truncate value max_length) max_length =
  Logger.truncate value max_length.
Proof.
  intros Hm.
  assert (Hlen : len (Logger.truncate value max_length) =
                 Z.min (len value) max_length).
  { destruct (Z_le_gt_dec (len value) max_length) as [H|H].
    - rewrite truncate_short by assumption. lia.
    - rewrite truncate_long by lia. rewrite len_append, len_slice_to.
      replace (0 <=? max_length - 3) with true
        by (symmetry; apply Z.leb_le; lia).
      change (len "...") with 3. lia. }
  split; [exact Hlen|].
  apply truncate_short. lia.
Qed.

Lemma truncate_length_idempotent_witness :
  len (Logger.truncate "Processing product: KELP" 10) =
  Z.min (len "Processing product: KELP") 10 /\
  Logger.truncate (Logger.truncate "Processing product: KELP" 10) 10 =
  Logger.truncate "Processing product: KELP" 10.
Proof.
  apply (truncate_length_idempotent "Processing product: KELP" 10). lia.
Defined.

(** For a share below 3, a text longer than its share comes back with the
    marker appended to all but its last [3 - max_length] characters, and
    so longer than the share; a negative share turns even the empty text
    into the bare marker. *)
Theorem truncate_small_share (value : string) (max_length : Z) :
  max_length < 3 -> max_length < len value ->
  len (Logger.truncate value max_length) =
  Z.max 0 (len value + max_length - 3) + 3 /\
  max_length < len (Logger.truncate value max_length) /\
  endswith (Logger.truncate value max_length) "..." = true.
Proof.
  intros Hm Hl. rewrite truncate_long by assumption.
  assert (E : len (slice_to value (max_length - 3) ++ "...") =
              Z.max 0 (len value + max_length - 3) + 3).
  { rewrite len_append, len_slice_to.
    replace (0 <=? max_length - 3) with false
      by (symmetry; apply Z.leb_gt; lia).
    change (len "...") with 3. lia. }
  rewrite E. split; [reflexivity|]. split; [lia|]. apply endswith_append.
Qed.

Lemma truncate_small_share_witness :
  len (Logger.truncate EmptyString (-1)) = Z.max 0 (0 + -1 - 3) + 3 /\
  -1 < len (Logger.truncate EmptyString (-1)) /\
  endswith (Logger.truncate EmptyString (-1)) "..." = true.
Proof.
  apply (truncate_small_share EmptyString (-1)); vm_compute; reflexivity.
Defined.

(** ** Size of escaped text *)

Lemma len_escape_char (c : ascii) : 1 <= len (escape_char c).
Proof.
  destruct c as [[] [] [] [] [] [] [] []]; vm_compute; discriminate.
Qed.

Lemma len_escape_bounds (s : string) : len s <= len (escape s).
Proof.
  induction s as [|c s IH]; [vm_compute; discriminate|].
  cbn [escape]. rewrite len_append, len_String.
  pose proof (len_escape_char c). lia.
Qed.

(** ** Logger.flush, continued *)

Lemma flush_open_line (state : TradingState)
    (orders : dict Symbol (list Order)) (conversions : Z)
    (trader_data : string) (rt : Runtime) (ls : list string) :
  stdout rt = Open ls ->
  Logger.flush state orders conversions trader_data rt =
  (Returned tt,
   {| logger := with_logs (logger rt) EmptyString;
      stdout :=
        Open (ls ++ [flush_line state orders conversions trader_data
                       (logger rt)]);
      calls := calls rt ++ [LoggerFlush] |}).
Proof.
  intros H. exact (flush_open state orders conversions trader_data rt ls H).
Qed.

(** When each of the three free-text fields fits its share, [flush]
    writes them uncut: the line is the serialized envelope of the full
    texts. *)
Theorem flush_keeps_text_that_fits (state : TradingState)
    (orders : dict Symbol (list Order)) (conversions : Z)
    (trader_data : string) (rt : Runtime) (ls : list string) :
  stdout rt = Open ls ->
  3 * len (traderData state)
    <= max_log_length (logger rt) - base_length state orders conversions - 2 ->
  3 * len trader_data
    <= max_log_length (logger rt) - base_length state orders conversions - 2 ->
  3 * len (logs (logger rt))
    <= max_log_length (logger rt) - base_length state orders conversions - 2 ->
  exists rt',
    Logger.flush state orders conversions trader_data rt = (Returned tt, rt') /\
    stdout rt' =
    Open (ls ++ [Logger.to_json
                   (Logger.envelope state orders conversions
                      (traderData state) trader_data (logs (logger rt)))]).
Proof.
  intros Hout H1 H2 H3.
  rewrite (flush_open_line _ _ _ _ _ _ Hout).
  eexists. split; [reflexivity|]. cbn [stdout]. unfold flush_line.
  set (m := (max_log_length (logger rt)
             - base_length state orders conversions) / 3).
  assert (Hm : max_log_length (logger rt)
               - base_length state orders conversions - 2 <= 3 * m).
  { pose proof (Z.mod_pos_bound
                  (max_log_length (logger rt)
                   - base_length state orders conversions) 3 ltac:(lia)).
    pose proof (Z.div_mod
                  (max_log_length (logger rt)
                   - base_length state orders conversions) 3 ltac:(lia)).
    subst m. lia. }
  rewrite !truncate_short by lia. reflexivity.
Qed.

Lemma flush_keeps_text_that_fits_witness :
  exists rt',
    Logger.flush (empty_state "carried") [] 1 "next"
      (runtime_with "Processing product: KELP" (Open [])) = (Returned tt, rt') /\
    stdout rt' =
    Open ([] ++ [Logger.to_json
                   (Logger.envelope (empty_state "carried") [] 1
                      "carried" "next" "Processing product: KELP")]).
Proof.
  apply (flush_keeps_text_that_fits (empty_state "carried") [] 1 "next"
           (runtime_with "Processing product: KELP" (Open [])) []);
    vm_compute; congruence.
Defined.

(** When the structural baseline alone exceeds the budget, [flush] still
    writes its line: every field, even an empty one, is replaced by text
    ending in the marker, and the line is at least 9 characters longer
    than the baseline. *)
Theorem flush_line_over_budget (state : TradingState)
    (orders : dict Symbol (list Order)) (conversions : Z)
    (trader_data : string) (self : LoggerObj) :
  max_log_length self < base_length state orders conversions ->
  max_log_length self + 9 < base_length state orders conversions + 9
    <= len (flush_line state orders conversions trader_data self).
Proof.
  intros Hbase. split; [lia|]. unfold flush_line.
  set (m := (max_log_length self - base_length state orders conversions) / 3).
  rewrite len_envelope. fold (base_length state orders conversions).
  assert (Hm : m < 0) by (apply Z.div_lt_upper_bound; lia).
  assert (Hcut : forall v, 3 <= len (escape (Logger.truncate v m))).
  { intros v. pose proof (len_nonneg v).
    pose proof (len_escape_bounds (Logger.truncate v m)).
    rewrite truncate_long in * by lia.
    rewrite len_append in *. change (len "...") with 3 in *.
    pose proof (len_nonneg (slice_to v (m - 3))). lia. }
  pose proof (Hcut (traderData state)).
  pose proof (Hcut trader_data).
  pose proof (Hcut (logs self)).
  lia.
Qed.

Lemma flush_line_over_budget_witness :
  3750 + 9
  < base_length (tick [] [(repeat_char "a" 4000, 0)]) [] 1 + 9
  <= len (flush_line (tick [] [(repeat_char "a" 4000, 0)]) [] 1 EmptyString
            Logger.init).
Proof.
  apply (flush_line_over_budget (tick [] [(repeat_char "a" 4000, 0)]) [] 1
           EmptyString Logger.init).
  vm_compute. reflexivity.
Defined.

(** Debug text is written once: after [print], the next [flush] writes
    the line of the extended buffer, and a second [flush] writes the line
    of an empty buffer. *)
Theorem print_flush_flush (objects : list string) (state : TradingState)
    (orders : dict Symbol (list Order)) (conversions : Z)
    (trader_data : string) (rt : Runtime) (ls : list string) :
  stdout rt = Open ls ->
  exists rt',
    (Logger.print objects ;;
     Logger.flush state orders conversions trader_data ;;
     Logger.flush state orders conversions trader_data) rt =
    (Returned tt, rt') /\
    logs (logger rt') = EmptyString /\
    stdout rt' =
    Open (ls ++
          [flush_line state orders conversions trader_data
             (with_logs (logger rt)
                (logs (logger rt) ++ String.concat " " objects ++ newline));
           flush_line state orders conversions trader_data
             (with_logs (logger rt) EmptyString)]).
Proof.
  intros Hout.
  rewrite (bind_returned _ _ _ _ _ (print_returns objects rt)).
  assert (H1 : stdout (advanced rt (String.concat " " objects ++ newline)
                         [LoggerPrint]) = Open ls) by exact Hout.
  rewrite (bind_returned _ _ _ _ _ (flush_open_line _ _ _ _ _ _ H1)).
  cbv beta. erewrite flush_open_line by reflexivity.
  eexists. split; [reflexivity|]. split; [reflexivity|].
  cbn [stdout]. rewrite <- app_assoc. reflexivity.
Qed.

Lemma print_flush_flush_witness :
  exists rt',
    (Logger.print ["Processing product: KELP"] ;;
     Logger.flush (empty_state EmptyString) [] 1 EmptyString ;;
     Logger.flush (empty_state EmptyString) [] 1 EmptyString)
      (runtime_with EmptyString (Open [])) = (Returned tt, rt') /\
    logs (logger rt') = EmptyString /\
    List.length (emitted rt') = 2%nat.
Proof.
  destruct (print_flush_flush ["Processing product: KELP"]
              (empty_state EmptyString) [] 1 EmptyString
              (runtime_with EmptyString (Open [])) [] eq_refl)
    as (rt' & E & Hlogs & Hout).
  exists rt'. split; [exact E|]. split; [exact Hlogs|].
  unfold emitted. rewrite Hout. reflexivity.
Defined.

(** ** The compression loops *)

Lemma fold_append {A B : Type} (f : A -> B) (l : list A) (acc : list B) :
  fold_left (fun compressed x => (compressed ++ [f x])%list) l acc =
  (acc ++ map f l)%list.
Proof.
  revert acc. induction l as [|x l IH]; intros acc; cbn [fold_left map].
  - now rewrite app_nil_r.
  - rewrite IH, <- app_assoc. reflexivity.
Qed.

Lemma fold_fold_append {A B : Type} (f : A -> B) (ls : list (list A))
    (acc : list B) :
  fold_left
    (fun compressed arr =>
       fold_left (fun compressed x => (compressed ++ [f x])%list)
         arr compressed) ls acc =
  (acc ++ map f (List.concat ls))%list.
Proof.
  revert acc. induction ls as [|l ls IH]; intros acc;
    cbn [fold_left List.concat].
  - now rewrite app_nil_r.
  - rewrite IH, fold_append, map_app, <- app_assoc. reflexivity.
Qed.

Lemma traverse_map {A B : Type} (f : A -> B) (g : B -> option A)
    (l : list A) :
  (forall x, g (f x) = Some x) -> traverse g (map f l) = Some l.
Proof.
  intros H. induction l as [|x l IH]; cbn [map traverse]; [reflexivity|].
  now rewrite H, IH.
Qed.

Lemma compress_orders_rows (orders : dict Symbol (list Order)) :
  Logger.compress_orders orders =
  map (fun order =>
         [PyStr (order_symbol order); PyInt (order_price order);
          PyInt (order_quantity order)]) (List.concat (values orders)).
Proof.
  unfold Logger.compress_orders. now rewrite fold_fold_append.
Qed.

Lemma compress_trades_rows (trades : dict Symbol (list Trade)) :
  Logger.compress_trades trades =
  map (fun trade =>
         [PyStr (trade_symbol trade); PyInt (trade_price trade);
          PyInt (trade_quantity trade); PyStr (trade_buyer trade);
          PyStr (trade_seller trade); PyInt (trade_timestamp trade)])
    (List.concat (values trades)).
Proof.
  unfold Logger.compress_trades. now rewrite fold_fold_append.
Qed.

Lemma compress_listings_rows (listings : dict Symbol Listing) :
  Logger.compress_listings listings =
  map (fun listing =>
         [PyStr (listing_symbol listing); PyStr (listing_product listing);
          PyStr (listing_denomination listing)]) (values listings).
Proof.
  unfold Logger.compress_listings. now rewrite fold_append.
Qed.

(** [compress_orders] keeps every order, in order, and loses exactly the
    grouping by key: all orders are read back from the rows, and two
    order maps have the same rows if and only if their order lists,
    concatenated, are the same (entries with an empty list leave no
    trace). *)
Theorem compress_orders_flattens (a b : dict Symbol (list Order)) :
  traverse decode_order_row (Logger.compress_orders a) =
  Some (List.concat (values a)) /\
  List.length (Logger.compress_orders a) =
  List.length (List.concat (values a)) /\
  (Logger.compress_orders a = Logger.compress_orders b <->
   List.concat (values a) = List.concat (values b)).
Proof.
  assert (R : forall d : dict Symbol (list Order),
            traverse decode_order_row (Logger.compress_orders d) =
            Some (List.concat (values d))).
  { intros d. rewrite compress_orders_rows. apply traverse_map.
    now intros []. }
  split; [apply R|]. split.
  - rewrite compress_orders_rows. apply length_map.
  - split; intros E.
    + pose proof (R a) as Ra. rewrite E, R in Ra. congruence.
    + rewrite !compress_orders_rows. now rewrite E.
Qed.

(** [compress_trades] keeps every trade of every symbol, in order, and
    loses exactly the grouping by key. *)
Theorem compress_trades_flattens (a b : dict Symbol (list Trade)) :
  traverse decode_trade_row (Logger.compress_trades a) =
  Some (List.concat (values a)) /\
  (Logger.compress_trades a = Logger.compress_trades b <->
   List.concat (values a) = List.concat (values b)).
Proof.
  assert (R : forall d : dict Symbol (list Trade),
            traverse decode_trade_row (Logger.compress_trades d) =
            Some (List.concat (values d))).
  { intros d. rewrite compress_trades_rows. apply traverse_map.
    now intros []. }
  split; [apply R|]. split; intros E.
  - pose proof (R a) as Ra. rewrite E, R in Ra. congruence.
  - rewrite !compress_trades_rows. now rewrite E.
Qed.

(** [compress_listings] writes one row per listing, in order, from the
    listing's own fields: the listings are read back from the rows, and
    the keys of the mapping are not serialized. *)
Theorem compress_listings_keeps_values (a b : dict Symbol Listing) :
  traverse decode_listing_row (Logger.compress_listings a) = Some (values a) /\
  (Logger.compress_listings a = Logger.compress_listings b <->
   values a = values b).
Proof.
  assert (R : forall d : dict Symbol Listing,
            traverse decode_listing_row (Logger.compress_listings d) =
            Some (values d)).
  { intros d. rewrite compress_listings_rows. apply traverse_map.
    now intros []. }
  split; [apply R|]. split; intros E.
  - pose proof (R a) as Ra. rewrite E, R in Ra. congruence.
  - rewrite !compress_listings_rows. now rewrite E.
Qed.

Lemma decode_any_str_dict {V : Type} (f : V -> Any) (g : Any -> option V)
    (d : dict string V) :
  (forall v, g (f v) = Some v) ->
  decode_str_dict g (any_str_dict f d) = Some d.
Proof.
  intros H. unfold decode_str_dict, any_str_dict.
  induction d as [|[k v] d IH]; cbn [map traverse fst snd]; [reflexivity|].
  now rewrite H, IH.
Qed.

(** [compress_observations] is lossless: the plain values and the seven
    fields of every conversion record are read back from its output. *)
Theorem compress_observations_lossless (a b : Observation) :
  dict_ok (conversionObservations a) ->
  dict_ok (conversionObservations b) ->
  decompress_observations (Logger.compress_observations a) = Some a /\
  (Logger.compress_observations a = Logger.compress_observations b -> a = b).
Proof.
  assert (R : forall o, dict_ok (conversionObservations o) ->
            decompress_observations (Logger.compress_observations o) = Some o).
  { intros [plain conv] Hok. unfold Logger.compress_observations.
    cbn [plainValueObservations conversionObservations] in *.
    rewrite (fold_dict_set
               (fun observation =>
                  [PyNum (bidPrice observation); PyNum (askPrice observation);
                   PyNum (transportFees observation);
                   PyNum (exportTariff observation);
                   PyNum (importTariff observation);
                   PyNum (sugarPrice observation);
                   PyNum (sunlightIndex observation)])) by exact Hok.
    cbn [app]. unfold decompress_observations.
    rewrite (decode_any_str_dict PyInt decode_int) by reflexivity.
    change (map (fun item : string * ConversionObservation =>
                   (fst item,
                    [PyNum (bidPrice (snd item)); PyNum (askPrice (snd item));
                     PyNum (transportFees (snd item));
                     PyNum (exportTariff (snd item));
                     PyNum (importTariff (snd item));
                     PyNum (sugarPrice (snd item));
                     PyNum (sunlightIndex (snd item))])) conv)
      with (map (fun item : string * ConversionObservation =>
                   (fst item,
                    (fun observation =>
                       [PyNum (bidPrice observation);
                        PyNum (askPrice observation);
                        PyNum (transportFees observation);
                        PyNum (exportTariff observation);
                        PyNum (importTariff observation);
                        PyNum (sugarPrice observation);
                        PyNum (sunlightIndex observation)]) (snd item))) conv).
    set (row := fun observation =>
                  [PyNum (bidPrice observation); PyNum (askPrice observation);
                   PyNum (transportFees observation);
                   PyNum (exportTariff observation);
                   PyNum (importTariff observation);
                   PyNum (sugarPrice observation);
                   PyNum (sunlightIndex observation)]).
    assert (E : any_str_dict any_list
                  (map (fun item : string * ConversionObservation =>
                          (fst item, row (snd item))) conv) =
                any_str_dict (fun o => any_list (row o)) conv).
    { unfold any_str_dict. rewrite map_map. reflexivity. }
    rewrite E.
    rewrite (decode_any_str_dict (fun o => any_list (row o))).
    - reflexivity.
    - now intros []. }
  intros Ha Hb. split; [now apply R|].
  intros E. pose proof (R a Ha) as Ra. rewrite E, (R b Hb) in Ra. congruence.
Qed.

Lemma compress_observations_lossless_witness :
  decompress_observations (Logger.compress_observations sample_observations) =
  Some sample_observations.
Proof.
  assert (Hok : dict_ok (conversionObservations sample_observations)).
  { unfold dict_ok. cbn. repeat constructor. intros []. }
  exact (proj1 (compress_observations_lossless _ _ Hok Hok)).
Defined.

(** ** The serialized text is printable ASCII *)

Lemma printable_append (a b : string) :
  printable a = true -> printable b = true -> printable (a ++ b) = true.
Proof.
  induction a as [|c a IH]; simpl; [auto|].
  intros H Hb. apply andb_prop in H. destruct H as [Hc Ha].
  now rewrite Hc, IH.
Qed.

Lemma printable_append_inv (a b : string) :
  printable (a ++ b) = true -> printable a = true /\ printable b = true.
Proof.
  induction a as [|c a IH]; simpl; [auto|].
  intros H. apply andb_prop in H. destruct H as [Hc Hab].
  destruct (IH Hab) as [Ha Hb]. now rewrite Hc, Ha.
Qed.

Lemma printable_escape_char (c : ascii) : printable (escape_char c) = true.
Proof.
  destruct c as [[] [] [] [] [] [] [] []]; reflexivity.
Qed.

Lemma printable_escape (s : string) : printable (escape s) = true.
Proof.
  induction s as [|c s IH]; [reflexivity|].
  cbn [escape]. apply printable_append; [apply printable_escape_char | exact IH].
Qed.

Lemma printable_encode_str (s : string) : printable (encode_str s) = true.
Proof.
  unfold encode_str. change (printable (String dquote ?x)) with (printable x).
  cbn [printable]. change (printable_char dquote) with true. cbn [andb].
  apply printable_append; [apply printable_escape | reflexivity].
Qed.

Lemma printable_uint (d : Decimal.uint) :
  printable (NilEmpty.string_of_uint d) = true.
Proof.
  induction d; cbn [NilEmpty.string_of_uint printable]; auto.
Qed.

Lemma printable_str_of_int (z : Z) : printable (str_of_int z) = true.
Proof.
  unfold str_of_int, NilZero.string_of_int, NilZero.string_of_uint.
  destruct (Z.to_int z) as [d|d]; destruct d;
    try reflexivity; cbn [printable]; try apply (printable_uint (_ d));
    change (printable_char "-") with true; cbn [andb];
    first [ reflexivity | apply (printable_uint (_ d)) ].
Qed.

Lemma printable_concat (sep : string) (l : list string) :
  printable sep = true ->
  Forall (fun s => printable s = true) l ->
  printable (String.concat sep l) = true.
Proof.
  intros Hsep H. induction H as [|x l Hx Hl IH]; [reflexivity|].
  cbn [String.concat]. destruct l as [|y l]; [exact Hx|].
  apply printable_append; [exact Hx|].
  apply printable_append; [exact Hsep | exact IH].
Qed.

Lemma dumps_printable (v : Any) :
  any_printable v = true -> printable (dumps v) = true.
Proof.
  revert v. fix IH 1. intros [n|s|l|l] H; cbn [dumps].
  - destruct n as [z|r]; [apply printable_str_of_int | exact H].
  - apply printable_encode_str.
  - apply (printable_append "["); [reflexivity|].
    apply printable_append; [|reflexivity].
    apply printable_concat; [reflexivity|].
    cbn [any_printable] in H. revert l H. fix IHl 1.
    intros [|x l] H; cbn [map]; constructor.
    + apply IH. cbn [forallb] in H. now apply andb_prop in H.
    + apply IHl. cbn [forallb] in H. now apply andb_prop in H.
  - apply (printable_append "{"); [reflexivity|].
    apply printable_append; [|reflexivity].
    apply printable_concat; [reflexivity|].
    cbn [any_printable] in H. revert l H. fix IHl 1.
    intros [|[k x] l] H; cbn [map]; constructor.
    + apply printable_append.
      * destruct k; apply printable_encode_str.
      * apply (printable_append ":"); [reflexivity|].
        apply IH. cbn [forallb] in H. now apply andb_prop in H.
    + apply IHl. cbn [forallb] in H. now apply andb_prop in H.
Qed.

(** Values the logger builds from strings and ints only. *)
Lemma any_printable_rows {A : Type} (f : A -> list Any) (l : list A) :
  (forall x, forallb any_printable (f x) = true) ->
  any_printable (any_rows (map f l)) = true.
Proof.
  intros H. unfold any_rows. cbn [any_printable].
  induction l as [|x l IH]; cbn [map forallb]; [reflexivity|].
  cbn [any_printable]. now rewrite H, IH.
Qed.

Lemma any_printable_int_dict (d : dict Z Z) :
  any_printable (any_int_dict d) = true.
Proof.
  unfold any_int_dict. cbn [any_printable].
  induction d as [|[k v] d IH]; cbn [map forallb]; [reflexivity|exact IH].
Qed.

Lemma any_printable_str_dict {V : Type} (f : V -> Any) (d : dict string V) :
  Forall (fun item => any_printable (f (snd item)) = true) d ->
  any_printable (any_str_dict f d) = true.
Proof.
  intros H. unfold any_str_dict. cbn [any_printable].
  induction H as [|[k v] d Hx Hd IH]; cbn [map forallb fst snd];
    [reflexivity|].
  cbn [snd] in Hx. cbv beta iota. now rewrite Hx, IH.
Qed.

(** Storing a value that satisfies [P] keeps [P] on all stored values. *)
Lemma dict_set_Forall {V : Type} (P : V -> Prop) (d : dict string V)
    (k : string) (v : V) :
  Forall (fun item => P (snd item)) d -> P v ->
  Forall (fun item => P (snd item)) (dict_set String.eqb d k v).
Proof.
  intros Hd Hv. induction Hd as [|[k' v'] d Hx Hd IH]; cbn [dict_set].
  - now constructor.
  - destruct (String.eqb k' k); constructor; auto.
Qed.

Lemma fold_dict_set_Forall {V W : Type} (P : W -> Prop) (f : V -> W)
    (d : dict string V) (acc : dict string W) :
  Forall (fun item => P (snd item)) acc ->
  Forall (fun item => P (f (snd item))) d ->
  Forall (fun item => P (snd item))
    (fold_left (fun c item => match item with
                              | (k, v) => dict_set String.eqb c k (f v)
                              end) d acc).
Proof.
  intros Hacc Hd. revert acc Hacc.
  induction Hd as [|[k v] d Hx Hd IH]; intros acc Hacc; cbn [fold_left].
  - exact Hacc.
  - apply IH. now apply dict_set_Forall.
Qed.

Lemma any_printable_envelope (state : TradingState)
    (orders : dict Symbol (list Order)) (conversions : Z)
    (t1 t2 t3 : string) :
  floats_printable state = true ->
  any_printable (Logger.envelope state orders conversions t1 t2 t3) = true.
Proof.
  intros Hf.
  assert (H1 : any_printable
                 (any_rows (Logger.compress_listings (listings state))) = true)
    by (rewrite compress_listings_rows; now apply any_printable_rows).
  assert (H2 : any_printable
                 (any_str_dict any_list
                    (Logger.compress_order_depths (order_depths state)))
               = true).
  { apply any_printable_str_dict. unfold Logger.compress_order_depths.
    apply (fold_dict_set_Forall (fun row => any_printable (any_list row) = true)
             (fun od => [any_int_dict (buy_orders od);
                         any_int_dict (sell_orders od)])).
    - constructor.
    - apply Forall_forall. intros [k od] _. unfold any_list.
      cbn [any_printable forallb snd].
      now rewrite !any_printable_int_dict. }
  assert (H3 : forall trades,
             any_printable (any_rows (Logger.compress_trades trades)) = true)
    by (intros; rewrite compress_trades_rows; now apply any_printable_rows).
  assert (H4 : any_printable (any_str_dict PyInt (position state)) = true)
    by (apply any_printable_str_dict, Forall_forall; now intros).
  assert (H5 : any_printable
                 (any_list (Logger.compress_observations (observations state)))
               = true).
  { unfold Logger.compress_observations, any_list.
    cbn [any_printable forallb]. apply andb_true_intro. split.
    - apply any_printable_str_dict, Forall_forall. now intros.
    - rewrite andb_true_r. apply any_printable_str_dict.
      apply (fold_dict_set_Forall
               (fun row => any_printable (any_list row) = true)
               (fun observation =>
                  [PyNum (bidPrice observation); PyNum (askPrice observation);
                   PyNum (transportFees observation);
                   PyNum (exportTariff observation);
                   PyNum (importTariff observation);
                   PyNum (sugarPrice observation);
                   PyNum (sunlightIndex observation)])).
      + constructor.
      + apply Forall_forall. intros item Hin.
        unfold floats_printable in Hf.
        rewrite forallb_forall in Hf. specialize (Hf item Hin).
        cbv zeta in Hf. unfold any_list. cbn [any_printable forallb].
        rewrite andb_true_r. rewrite <- !andb_assoc in Hf. exact Hf. }
  assert (H6 : any_printable (any_rows (Logger.compress_orders orders)) = true)
    by (rewrite compress_orders_rows; now apply any_printable_rows).
  unfold Logger.envelope, Logger.compress_state.
  unfold any_list.
  change (any_printable
            (PyList
               [PyList
                  [PyInt (timestamp state); PyStr t1;
                   any_rows (Logger.compress_listings (listings state));
                   any_str_dict (fun l => PyList l)
                     (Logger.compress_order_depths (order_depths state));
                   any_rows (Logger.compress_trades (own_trades state));
                   any_rows (Logger.compress_trades (market_trades state));
                   any_str_dict PyInt (position state);
                   PyList
                     (Logger.compress_observations (observations state))];
                any_rows (Logger.compress_orders orders);
                PyInt conversions; PyStr t2; PyStr t3]))
    with (any_printable
            (any_rows (Logger.compress_listings (listings state))) &&
          (any_printable
             (any_str_dict any_list
                (Logger.compress_order_depths (order_depths state))) &&
           (any_printable
              (any_rows (Logger.compress_trades (own_trades state))) &&
            (any_printable
               (any_rows (Logger.compress_trades (market_trades state))) &&
             (any_printable (any_str_dict PyInt (position state)) &&
              (any_printable
                 (any_list
                    (Logger.compress_observations (observations state))) &&
               true))))) &&
          (any_printable (any_rows (Logger.compress_orders orders)) && true)).
  rewrite H1, H2, !H3, H4, H5, H6. reflexivity.
Qed.

Lemma printable_no_char (s : string) (c : ascii) :
  printable s = true -> printable_char c = false ->
  ~ In c (list_ascii_of_string s).
Proof.
  intros Hs Hc. induction s as [|x s IH]; cbn [list_ascii_of_string];
    [intros []|].
  cbn [printable] in Hs. apply andb_prop in Hs. destruct Hs as [Hx Hs].
  intros [E|Hin]; [congruence | now apply IH].
Qed.

(** The line [flush] writes is printable ASCII whatever the free-text
    fields contain: it holds no raw newline or other control character
    and no character above 126, provided the floats of the tick print as
    such. *)
Theorem flush_line_printable (state : TradingState)
    (orders : dict Symbol (list Order)) (conversions : Z)
    (trader_data : string) (self : LoggerObj) :
  floats_printable state = true ->
  printable (flush_line state orders conversions trader_data self) = true /\
  ~ In "010"%char
      (list_ascii_of_string
         (flush_line state orders conversions trader_data self)).
Proof.
  intros Hf.
  assert (H : printable
                (flush_line state orders conversions trader_data self) = true).
  { unfold flush_line, Logger.to_json. cbv zeta.
    apply dumps_printable. now apply any_printable_envelope. }
  split; [exact H|]. now apply printable_no_char.
Qed.

Lemma flush_line_printable_witness :
  printable
    (flush_line
       {| traderData := newline; timestamp := 0; listings := [];
          order_depths := []; own_trades := []; market_trades := [];
          position := []; observations := sample_observations |}
       [] 1 newline (with_logs Logger.init newline)) = true.
Proof.
  exact (proj1 (flush_line_printable
                  {| traderData := newline; timestamp := 0; listings := [];
                     order_depths := []; own_trades := [];
                     market_trades := []; position := [];
                     observations := sample_observations |}
                  [] 1 newline (with_logs Logger.init newline) eq_refl)).
Defined.

(** ** Product.update, continued *)

(** [update] never raises: it stores the tick's position for the
    policy's symbol, or 0 when the tick has none, whatever position the
    policy held; limit, symbol, debug buffer and standard output are left
    alone, and a second [update] on the same tick changes nothing. *)
Theorem update_refreshes_position (state : TradingState) (me : Product.t)
    (rt : Runtime) :
  exists me' rt',
    Product.update state (me, rt) = (Returned tt, (me', rt')) /\
    Product.position me' =
      match dict_get String.eqb (position state) (Product.id me) with
      | Some p => p
      | None => 0
      end /\
    Product.limit me' = Product.limit me /\
    Product.id me' = Product.id me /\
    Product.cls me' = Product.cls me /\
    logger rt' = logger rt /\ stdout rt' = stdout rt /\
    fst (snd (Product.update state (me', rt'))) = me'.
Proof.
  eexists. eexists. split; [apply update_returns|].
  repeat split. rewrite update_returns. reflexivity.
Qed.

(** ** Best prices, continued *)

Lemma fold_min_le (l : list Z) (x y : Z) :
  In y (x :: l) -> fold_left Z.min l x <= y.
Proof.
  revert x y. induction l as [|a l IH]; intros x y H; cbn [fold_left].
  - destruct H as [E|[]]. lia.
  - assert (Hm : fold_left Z.min l (Z.min x a) <= Z.min x a)
      by (apply IH; left; reflexivity).
    destruct H as [E|[E|H]]; [lia | lia | apply IH; now right].
Qed.

Lemma fold_max_ge (l : list Z) (x y : Z) :
  In y (x :: l) -> y <= fold_left Z.max l x.
Proof.
  revert x y. induction l as [|a l IH]; intros x y H; cbn [fold_left].
  - destruct H as [E|[]]. lia.
  - assert (Hm : Z.max x a <= fold_left Z.max l (Z.max x a))
      by (apply IH; left; reflexivity).
    destruct H as [E|[E|H]]; [lia | lia | apply IH; now right].
Qed.

Lemma py_min_spec (xs : list Z) (a : Z) :
  py_min xs = Some a -> In a xs /\ forall p, In p xs -> a <= p.
Proof.
  destruct xs as [|x xs]; [discriminate|]. cbn [py_min].
  intros E. injection E as <-. split.
  - apply fold_min_in.
  - intros p. apply fold_min_le.
Qed.

Lemma py_max_spec (xs : list Z) (b : Z) :
  py_max xs = Some b -> In b xs /\ forall p, In p xs -> p <= b.
Proof.
  destruct xs as [|x xs]; [discriminate|]. cbn [py_max].
  intros E. injection E as <-. split.
  - apply fold_max_in.
  - intros p. apply fold_max_ge.
Qed.

(** The legs, spelled out. *)
Lemma buy_leg_cases (me : Product.t) (od : OrderDepth) :
  (buy_leg me od = [] /\
   forall p, In p (keys (sell_orders od)) -> 10000 <= p) \/
  (exists a v,
     py_min (keys (sell_orders od)) = Some a /\
     dict_get Z.eqb (sell_orders od) a = Some v /\ a < 10000 /\
     buy_leg me od =
     [{| order_symbol := Product.id me; order_price := a;
         order_quantity :=
           Z.min (-1 * v) (Product.limit me - Product.position me) |}]).
Proof.
  unfold buy_leg.
  destruct (sell_orders od) as [|a0 asks] eqn:Ea.
  - left. split; [reflexivity|]. intros p [].
  - destruct (best_ask_found (a0 :: asks)) as (a & v & Ha & Hv);
      [discriminate|].
    rewrite Ha, Hv. destruct (Z.ltb_spec a 10000) as [Hlt|Hge].
    + right. exists a, v. repeat split; auto.
    + left. split; [reflexivity|]. intros p Hp.
      apply py_min_spec in Ha. destruct Ha as [_ Hmin].
      specialize (Hmin p Hp). lia.
Qed.

Lemma sell_leg_cases (me : Product.t) (od : OrderDepth) :
  (sell_leg me od = [] /\
   forall p, In p (keys (buy_orders od)) -> p <= 10000) \/
  (exists b w,
     py_max (keys (buy_orders od)) = Some b /\
     dict_get Z.eqb (buy_orders od) b = Some w /\ b > 10000 /\
     sell_leg me od =
     [{| order_symbol := Product.id me; order_price := b;
         order_quantity :=
           - Z.min w (Product.limit me + Product.position me) |}]).
Proof.
  unfold sell_leg.
  destruct (buy_orders od) as [|b0 bids] eqn:Eb.
  - left. split; [reflexivity|]. intros p [].
  - destruct (best_bid_found (b0 :: bids)) as (b & w & Hb & Hw);
      [discriminate|].
    rewrite Hb, Hw. destruct (Z.gtb_spec b 10000) as [Hgt|Hle].
    + right. exists b, w. repeat split; auto. lia.
    + left. split; [reflexivity|]. intros p Hp.
      apply py_max_spec in Hb. destruct Hb as [_ Hmax].
      specialize (Hmax p Hp). lia.
Qed.

(** ** RainforestResin.trade, continued *)

Lemma order_line_buy (symbol : string) (a q : Z) :
  a < 10000 ->
  order_line {| order_symbol := symbol; order_price := a;
                order_quantity := q |} =
  "Buying " ++ str_of_int q ++ " " ++ symbol ++ " @ " ++ str_of_int a
  ++ newline.
Proof.
  intros H. unfold order_line. cbn [order_price order_quantity order_symbol].
  apply Z.ltb_lt in H. rewrite H. now rewrite !append_assoc.
Qed.

Lemma order_line_sell (symbol : string) (b q : Z) :
  b > 10000 ->
  order_line {| order_symbol := symbol; order_price := b;
                order_quantity := - q |} =
  "Selling " ++ str_of_int q ++ " " ++ symbol ++ " @ " ++ str_of_int b
  ++ newline.
Proof.
  intros H. unfold order_line. cbn [order_price order_quantity order_symbol].
  replace (b <? 10000) with false by (symmetry; apply Z.ltb_ge; lia).
  rewrite Z.opp_involutive. now rewrite !append_assoc.
Qed.

(** [trade] with the text it logs: one line per order. *)
Lemma resin_trade_exact (state : TradingState) (me : Product.t)
    (rt : Runtime) (od : OrderDepth) :
  dict_get String.eqb (order_depths state) (Product.id me) = Some od ->
  let me' := updated me state in
  let orders := (buy_leg me' od ++ sell_leg me' od)%list in
  RainforestResin.trade state (me, rt) =
  (Returned orders,
   (me',
    advanced rt (join_lines (map order_line orders))
      (ProductTrade (Product.id me) :: ProductUpdate (Product.id me) ::
       map (fun _ => LoggerPrint) orders))).
Proof.
  intros Hod me' orders. subst orders.
  destruct rt as [[lg mx] out cs].
  unfold RainforestResin.trade.
  unfold bind at 1. unfold Product.self at 1.
  unfold bind at 1. unfold on_snd at 1, record_call at 1, modify at 1.
  cbn [fst snd logger stdout calls].
  unfold bind at 1. rewrite update_returns. fold me'.
  unfold bind at 1. unfold Product.self at 1.
  unfold bind at 1. unfold getitem at 1.
  cbn [fst snd logger stdout calls].
  change (Product.id me') with (Product.id me). rewrite Hod. unfold ret at 1.
  unfold buy_leg, sell_leg, advanced.
  destruct (sell_orders od) as [|a0 asks] eqn:Ea;
    [| destruct (best_ask_found (a0 :: asks)) as (a & v & Ha & Hv);
       [discriminate|] ];
  (destruct (buy_orders od) as [|b0 bids] eqn:Eb;
    [| destruct (best_bid_found (b0 :: bids)) as (b & w & Hb & Hw);
       [discriminate|] ]).
  all: rewrite ?Ha, ?Hv, ?Hb, ?Hw.
  all: cbn [keys map py_min py_max List.length Nat.eqb negb].
  all: cbv beta iota zeta delta
         [bind nonempty getitem ret Product.self on_snd Logger.print
          record_call modify get set_logs fst snd logger stdout calls logs
          max_log_length].
  all: rewrite ?Ha, ?Hv, ?Hb, ?Hw.
  all: cbv beta iota.
  all: try destruct (Z.ltb_spec a 10000) as [Hlt|Hlt];
       try destruct (Z.gtb_spec b 10000) as [Hgt|Hgt].
  all: cbv beta iota zeta delta
         [bind nonempty getitem ret Product.self on_snd Logger.print
          record_call modify get set_logs fst snd logger stdout calls logs
          max_log_length].
  all: cbn [app map join_lines fold_right String.concat];
       rewrite <- ?app_assoc; cbn [app].
  all: rewrite ?order_line_buy, ?order_line_sell by lia.
  all: rewrite ?append_empty_r, ?append_assoc.
  all: try reflexivity.
Qed.

(** [trade] returns no order exactly when the book offers no edge: no
    ask below 10000 and no bid above 10000 (in particular on a book with
    both sides empty). *)
Theorem resin_trades_iff_edge (state : TradingState) (me : Product.t)
    (rt : Runtime) (od : OrderDepth) :
  dict_get String.eqb (order_depths state) (Product.id me) = Some od ->
  exists orders s',
    RainforestResin.trade state (me, rt) = (Returned orders, s') /\
    (orders = [] <->
     (forall p, In p (keys (sell_orders od)) -> 10000 <= p) /\
     (forall p, In p (keys (buy_orders od)) -> p <= 10000)).
Proof.
  intros Hod. pose proof (resin_trade_exact state me rt od Hod) as E.
  cbv zeta in E. eexists. eexists. split; [exact E|].
  destruct (buy_leg_cases (updated me state) od)
    as [[Eb Hb]|(a & v & Ha & Hv & Hlt & Eb)];
  destruct (sell_leg_cases (updated me state) od)
    as [[Es Hs]|(b & w & Hb' & Hw & Hgt & Es)];
  rewrite Eb, Es; cbn [app]; split;
    try (intros; now split); try discriminate.
  - intros [_ H]. apply py_max_spec in Hb'. destruct Hb' as [Hin _].
    specialize (H b Hin). lia.
  - intros [H _]. apply py_min_spec in Ha. destruct Ha as [Hin _].
    specialize (H a Hin). lia.
  - intros [H _]. apply py_min_spec in Ha. destruct Ha as [Hin _].
    specialize (H a Hin). lia.
Qed.

Lemma resin_trades_iff_edge_witness :
  exists s',
    RainforestResin.trade (resin_tick [] [] 0)
      (resin_at 0, runtime_with EmptyString (Open [])) = (Returned [], s').
Proof.
  destruct (resin_trades_iff_edge (resin_tick [] [] 0) (resin_at 0)
              (runtime_with EmptyString (Open []))
              {| buy_orders := []; sell_orders := [] |} eq_refl)
    as (orders & s' & E & Hiff).
  exists s'. rewrite E. f_equal. f_equal. apply Hiff.
  split; intros p [].
Defined.

(** [trade] returns at most two orders, all for the policy's own
    symbol; each one is priced at the best price of the side it takes,
    the lowest ask when below 10000 or the highest bid when above, and
    never at 10000. *)
Theorem resin_orders_at_best_prices (state : TradingState) (me : Product.t)
    (rt : Runtime) (od : OrderDepth) (orders : list Order)
    (s' : Product.t * Runtime) :
  dict_get String.eqb (order_depths state) (Product.id me) = Some od ->
  RainforestResin.trade state (me, rt) = (Returned orders, s') ->
  (List.length orders <= 2)%nat /\
  forall o, In o orders ->
    order_symbol o = Product.id me /\
    ((order_price o < 10000 /\
      In (order_price o) (keys (sell_orders od)) /\
      forall p, In p (keys (sell_orders od)) -> order_price o <= p) \/
     (order_price o > 10000 /\
      In (order_price o) (keys (buy_orders od)) /\
      forall p, In p (keys (buy_orders od)) -> p <= order_price o)).
Proof.
  intros Hod Hrun. pose proof (resin_trade_exact state me rt od Hod) as E.
  cbv zeta in E. rewrite E in Hrun. injection Hrun as <- _.
  destruct (buy_leg_cases (updated me state) od)
    as [[Eb _]|(a & v & Ha & Hv & Hlt & Eb)];
  destruct (sell_leg_cases (updated me state) od)
    as [[Es _]|(b & w & Hb & Hw & Hgt & Es)];
  rewrite Eb, Es; cbn [app List.length]; (split; [lia|]);
    intros o Ho; cbn [In] in Ho;
    repeat match goal with
           | H : _ \/ _ |- _ => destruct H as [H|H]
           | H : False |- _ => destruct H
           end;
    subst o; cbn [order_symbol order_price updated Product.id];
    (split; [reflexivity|]).
  - right. apply py_max_spec in Hb. now split.
  - left. apply py_min_spec in Ha. now split.
  - left. apply py_min_spec in Ha. now split.
  - right. apply py_max_spec in Hb. now split.
Qed.

Lemma resin_orders_at_best_prices_witness :
  exists orders s',
    RainforestResin.trade (resin_tick [(10002, 8)] [(10001, -4); (9998, -10)] 0)
      (resin_at 0, runtime_with EmptyString (Open [])) = (Returned orders, s') /\
    (List.length orders <= 2)%nat.
Proof.
  assert (E : exists orders s',
            RainforestResin.trade
              (resin_tick [(10002, 8)] [(10001, -4); (9998, -10)] 0)
              (resin_at 0, runtime_with EmptyString (Open [])) =
            (Returned orders, s'))
    by (vm_compute; do 2 eexists; reflexivity).
  destruct E as (orders & s' & E). exists orders, s'. split; [exact E|].
  exact (proj1 (resin_orders_at_best_prices
                  (resin_tick [(10002, 8)] [(10001, -4); (9998, -10)] 0)
                  (resin_at 0) (runtime_with EmptyString (Open []))
                  {| buy_orders := [(10002, 8)];
                     sell_orders := [(10001, -4); (9998, -10)] |}
                  orders s' eq_refl E)).
Defined.

(** With correctly signed books and the refreshed position within the
    limit, a buy order asks for between 0 and the volume resting at its
    price, and a sell order offers between 0 and the volume bid at its
    price: the sign of every quantity matches its side and no order is
    larger than the liquidity it takes. *)
Theorem resin_quantities_within_liquidity (state : TradingState)
    (me : Product.t) (rt : Runtime) (od : OrderDepth) (orders : list Order)
    (s' : Product.t * Runtime) :
  dict_get String.eqb (order_depths state) (Product.id me) = Some od ->
  signed_book od ->
  - Product.limit me <= refreshed state (Product.id me) <= Product.limit me ->
  RainforestResin.trade state (me, rt) = (Returned orders, s') ->
  forall o, In o orders ->
    (order_price o < 10000 /\
     exists v, dict_get Z.eqb (sell_orders od) (order_price o) = Some v /\
               0 <= order_quantity o <= - v) \/
    (order_price o > 10000 /\
     exists w, dict_get Z.eqb (buy_orders od) (order_price o) = Some w /\
               - w <= order_quantity o <= 0).
Proof.
  intros Hod [Hbuy Hsell] Hpos Hrun.
  pose proof (resin_trade_exact state me rt od Hod) as E.
  cbv zeta in E. rewrite E in Hrun. injection Hrun as <- _.
  intros o Ho. apply in_app_or in Ho. destruct Ho as [Ho|Ho].
  - left.
    destruct (buy_leg_cases (updated me state) od)
      as [[Eb _]|(a & v & Ha & Hv & Hlt & Eb)]; rewrite Eb in Ho;
      [destruct Ho|].
    destruct Ho as [<-|[]]. cbn [order_price order_quantity].
    split; [exact Hlt|]. exists v. split; [exact Hv|].
    apply (dict_get_some_in Z.eqb_spec) in Hv. apply Hsell in Hv.
    cbn [updated Product.limit Product.position]. lia.
  - right.
    destruct (sell_leg_cases (updated me state) od)
      as [[Es _]|(b & w & Hb & Hw & Hgt & Es)]; rewrite Es in Ho;
      [destruct Ho|].
    destruct Ho as [<-|[]]. cbn [order_price order_quantity].
    split; [exact Hgt|]. exists w. split; [exact Hw|].
    apply (dict_get_some_in Z.eqb_spec) in Hw. apply Hbuy in Hw.
    cbn [updated Product.limit Product.position]. lia.
Qed.

Lemma resin_quantities_within_liquidity_witness :
  exists v, dict_get Z.eqb [(9998, -10)] 9998 = Some v /\ 0 <= 2 <= - v.
Proof.
  assert (Hbook : signed_book
                    {| buy_orders := []; sell_orders := [(9998, -10)] |}).
  { split; intros p q H; [destruct H|].
    destruct H as [H|[]]. injection H as <- <-. lia. }
  assert (Hpos : - Product.limit (resin_at 0)
                 <= refreshed (resin_tick [] [(9998, -10)] 48)
                      (Product.id (resin_at 0))
                 <= Product.limit (resin_at 0))
    by (vm_compute; split; congruence).
  destruct (resin_quantities_within_liquidity
              (resin_tick [] [(9998, -10)] 48) (resin_at 0)
              (runtime_with EmptyString (Open []))
              {| buy_orders := []; sell_orders := [(9998, -10)] |}
              _ _ eq_refl Hbook Hpos eq_refl
              {| order_symbol := "RAINFOREST_RESIN"; order_price := 9998;
                 order_quantity := 2 |} (or_introl eq_refl))
    as [[_ H]|[Hgt _]]; [exact H | discriminate Hgt].
Defined.

(** [trade] logs exactly one line per order it returns, in order,
    naming the side, the unsigned quantity, the symbol and the price; it
    writes nothing to standard output and keeps what was buffered. *)
Theorem resin_trade_logs_each_order (state : TradingState) (me : Product.t)
    (rt : Runtime) (od : OrderDepth) :
  dict_get String.eqb (order_depths state) (Product.id me) = Some od ->
  exists orders me' rt',
    RainforestResin.trade state (me, rt) = (Returned orders, (me', rt')) /\
    logs (logger rt') =
    logs (logger rt) ++ join_lines (map order_line orders) /\
    stdout rt' = stdout rt /\
    max_log_length (logger rt') = max_log_length (logger rt).
Proof.
  intros Hod. pose proof (resin_trade_exact state me rt od Hod) as E.
  cbv zeta in E. do 3 eexists. split; [exact E|]. repeat split.
Qed.

Lemma resin_trade_logs_each_order_witness :
  exists orders me' rt',
    RainforestResin.trade (resin_tick [(10002, 8)] [(9998, -10)] 48)
      (resin_at 0, runtime_with EmptyString (Open [])) =
    (Returned orders, (me', rt')) /\
    logs (logger rt') =
    "Buying 2 RAINFOREST_RESIN @ 9998" ++ newline ++
    "Selling 8 RAINFOREST_RESIN @ 10002" ++ newline.
Proof.
  destruct (resin_trade_logs_each_order
              (resin_tick [(10002, 8)] [(9998, -10)] 48) (resin_at 0)
              (runtime_with EmptyString (Open []))
              {| buy_orders := [(10002, 8)]; sell_orders := [(9998, -10)] |}
              eq_refl) as (orders & me' & rt' & E & Hlogs & _).
  exists orders, me', rt'. split; [exact E|].
  rewrite Hlogs. vm_compute in E. injection E as <- _ _. reflexivity.
Defined.

Lemma legs_same (me1 me2 : Product.t) (od : OrderDepth) :
  Product.limit me1 = Product.limit me2 ->
  Product.position me1 = Product.position me2 ->
  Product.id me1 = Product.id me2 ->
  buy_leg me1 od = buy_leg me2 od /\ sell_leg me1 od = sell_leg me2 od.
Proof.
  intros Hl Hp Hi. unfold buy_leg, sell_leg. now rewrite Hl, Hp, Hi.
Qed.

(** What [trade] returns depends on the tick, the policy's symbol and
    its limit only: not on the position the policy held before, nor on
    the process state.  Calling it again on the same tick gives the same
    outcome (positions are refreshed, not accumulated). *)
Theorem resin_trade_ignores_history (state : TradingState)
    (me1 me2 : Product.t) (rt1 rt2 : Runtime) :
  Product.limit me1 = Product.limit me2 ->
  Product.id me1 = Product.id me2 ->
  fst (RainforestResin.trade state (me1, rt1)) =
  fst (RainforestResin.trade state (me2, rt2)) /\
  fst (RainforestResin.trade state
         (snd (RainforestResin.trade state (me1, rt1)))) =
  fst (RainforestResin.trade state (me1, rt1)).
Proof.
  assert (G : forall a b r1 r2,
            Product.limit a = Product.limit b ->
            Product.id a = Product.id b ->
            fst (RainforestResin.trade state (a, r1)) =
            fst (RainforestResin.trade state (b, r2))).
  { intros a b r1 r2 Hl Hi.
    destruct (dict_get String.eqb (order_depths state) (Product.id a))
      as [od|] eqn:Hod.
    - pose proof (resin_trade_exact state a r1 od Hod) as Ea.
      rewrite Hi in Hod.
      pose proof (resin_trade_exact state b r2 od Hod) as Eb.
      cbv zeta in Ea, Eb. rewrite Ea, Eb. cbn [fst].
      destruct (legs_same (updated a state) (updated b state) od) as [-> ->];
        cbn [updated Product.limit Product.position Product.id];
        congruence.
    - rewrite (resin_trade_raises state a r1 Hod).
      rewrite Hi in Hod. rewrite (resin_trade_raises state b r2 Hod).
      cbn [fst]. now rewrite Hi. }
  intros Hl Hi. split; [now apply G|].
  destruct (RainforestResin.trade state (me1, rt1)) as [o [me' rt']] eqn:E.
  cbn [fst snd].
  assert (Hsame : Product.limit me' = Product.limit me1 /\
                  Product.id me' = Product.id me1).
  { destruct (dict_get String.eqb (order_depths state) (Product.id me1))
      as [od|] eqn:Hod.
    - pose proof (resin_trade_exact state me1 rt1 od Hod) as E1.
      cbv zeta in E1. rewrite E1 in E. injection E as _ <- _. now split.
    - rewrite (resin_trade_raises state me1 rt1 Hod) in E.
      injection E as _ <- _. now split. }
  destruct Hsame as [Hl' Hi'].
  rewrite (G me' me1 rt' rt1 Hl' Hi'). now rewrite E.
Qed.

Lemma resin_trade_ignores_history_witness :
  fst (RainforestResin.trade (resin_tick [(10002, 8)] [(9998, -10)] 48)
         (resin_at 0, runtime_with EmptyString (Open []))) =
  fst (RainforestResin.trade (resin_tick [(10002, 8)] [(9998, -10)] 48)
         (resin_at (-37), runtime_with "stale" Closed)).
Proof.
  exact (proj1 (resin_trade_ignores_history
                  (resin_tick [(10002, 8)] [(9998, -10)] 48)
                  (resin_at 0) (resin_at (-37))
                  (runtime_with EmptyString (Open []))
                  (runtime_with "stale" Closed) eq_refl eq_refl)).
Defined.

(** ** Trader.run, continued *)

Lemma decided_resin (state : TradingState) (od : OrderDepth) :
  dict_get String.eqb (order_depths state) "RAINFOREST_RESIN" = Some od ->
  decided state "RAINFOREST_RESIN" =
  (buy_leg (resin_at (refreshed state "RAINFOREST_RESIN")) od ++
   sell_leg (resin_at (refreshed state "RAINFOREST_RESIN")) od)%list.
Proof.
  intros Hod. unfold decided.
  change (dict_get String.eqb Trader.products "RAINFOREST_RESIN")
    with (Some (resin_at 0)).
  cbv beta iota. rewrite call_trade_resin.
  pose proof (resin_trade_exact state (resin_at 0)
                (runtime_with EmptyString (Open [])) od Hod) as E.
  cbv zeta in E. rewrite E. reflexivity.
Qed.

Lemma decided_kelp (state : TradingState) : decided state "KELP" = [].
Proof.
  unfold decided.
  change (dict_get String.eqb Trader.products "KELP") with (Some (kelp_at 0)).
  cbv beta iota. rewrite call_trade_kelp. now rewrite kelp_trade_returns.
Qed.

Lemma decided_unregistered (state : TradingState) (symbol : string) :
  registered symbol = false -> decided state symbol = [].
Proof.
  unfold registered, dict_mem, decided.
  destruct (dict_get String.eqb Trader.products symbol);
    [discriminate | reflexivity].
Qed.

Lemma resin_call_exact (state : TradingState) (p : Z) (rt : Runtime)
    (od : OrderDepth) :
  dict_get String.eqb (order_depths state) "RAINFOREST_RESIN" = Some od ->
  call_trade state (resin_at p, rt) =
  (Returned (decided state "RAINFOREST_RESIN"),
   (resin_at (refreshed state "RAINFOREST_RESIN"),
    advanced rt
      (join_lines (map order_line (decided state "RAINFOREST_RESIN")))
      (ProductTrade "RAINFOREST_RESIN" :: ProductUpdate "RAINFOREST_RESIN" ::
       map (fun _ => LoggerPrint) (decided state "RAINFOREST_RESIN")))).
Proof.
  intros Hod. rewrite call_trade_resin, (decided_resin state od Hod).
  pose proof (resin_trade_exact state (resin_at p) rt od Hod) as E.
  cbv zeta in E. rewrite E. reflexivity.
Qed.

Lemma position_after_step (state : TradingState) (k symbol : string)
    (symbols : list string) (p : Z) :
  position_after state symbols symbol (position_after state [k] symbol p) =
  position_after state (k :: symbols) symbol p.
Proof.
  unfold position_after. cbn [existsb].
  destruct (String.eqb symbol k), (existsb (String.eqb symbol) symbols);
    reflexivity.
Qed.

(** One iteration, with the text it logs and the positions it leaves. *)
Lemma run_body_exact (state : TradingState)
    (acc : dict Symbol (list Order)) (symbol : string) (p1 p2 : Z)
    (rt : Runtime) :
  In symbol (keys (order_depths state)) ->
  run_body state acc symbol (registry p1 p2, rt) =
  (Returned (if registered symbol
             then dict_set String.eqb acc symbol (decided state symbol)
             else acc),
   (registry (position_after state [symbol] "RAINFOREST_RESIN" p1)
             (position_after state [symbol] "KELP" p2),
    advanced rt (symbol_text state symbol) (symbol_calls state symbol))).
Proof.
  intros Hin.
  unfold run_body. unfold bind at 1. unfold on_snd at 1.
  rewrite print_returns. cbn [fst snd String.concat].
  unfold bind at 1, get at 1. cbn [fst].
  unfold position_after. cbn [existsb]. rewrite !orb_false_r.
  destruct (registered_cases symbol)
    as [[-> Hreg]|[[-> Hreg]|(N1 & N2 & Hreg & Hmem)]];
    unfold symbol_calls, symbol_text; rewrite Hreg.
  - destruct (dict_get_in String.eqb_spec _ _ Hin) as [od Hod].
    change (dict_mem String.eqb (registry p1 p2) "RAINFOREST_RESIN") with true.
    cbv iota. unfold bind at 1. unfold Trader.on_product.
    cbn [fst snd].
    change (dict_get String.eqb (registry p1 p2) "RAINFOREST_RESIN")
      with (Some (resin_at p1)).
    cbv iota. rewrite (resin_call_exact state p1 _ od Hod).
    rewrite advanced_advanced. unfold ret.
    rewrite <- append_assoc. reflexivity.
  - change (dict_mem String.eqb (registry p1 p2) "KELP") with true.
    cbv iota. unfold bind at 1. unfold Trader.on_product.
    cbn [fst snd].
    change (dict_get String.eqb (registry p1 p2) "KELP")
      with (Some (kelp_at p2)).
    cbv iota. rewrite kelp_call_returns, advanced_advanced. unfold ret.
    rewrite decided_kelp. cbn [map join_lines fold_right].
    rewrite <- append_assoc. reflexivity.
  - rewrite Hmem. unfold ret.
    destruct (String.eqb_spec "RAINFOREST_RESIN" symbol); [congruence|].
    destruct (String.eqb_spec "KELP" symbol); [congruence|].
    rewrite <- append_assoc, append_empty_r. reflexivity.
Qed.

Lemma run_loop_exact (state : TradingState) (symbols : list string) :
  (forall symbol, In symbol symbols ->
                  In symbol (keys (order_depths state))) ->
  forall (acc : dict Symbol (list Order)) (p1 p2 : Z) (rt : Runtime),
    for_loop symbols acc (run_body state) (registry p1 p2, rt) =
    (Returned
       (fold_left
          (fun result symbol =>
             if registered symbol
             then dict_set String.eqb result symbol (decided state symbol)
             else result) symbols acc),
     (registry (position_after state symbols "RAINFOREST_RESIN" p1)
               (position_after state symbols "KELP" p2),
      advanced rt (join_lines (map (symbol_text state) symbols))
        (flat_map (symbol_calls state) symbols))).
Proof.
  induction symbols as [|symbol symbols IH]; intros Hin acc p1 p2 rt.
  - cbn [for_loop fold_left flat_map map join_lines fold_right].
    now rewrite advanced_nothing.
  - cbn [for_loop fold_left flat_map map join_lines fold_right].
    rewrite (bind_returned _ _ _ _ _
               (run_body_exact state acc symbol p1 p2 rt
                  (Hin symbol (or_introl eq_refl)))).
    cbv beta. rewrite (IH (fun s H => Hin s (or_intror H))).
    now rewrite advanced_advanced, !position_after_step.
Qed.

(** [Trader.run] on an open standard output, in full. *)
Lemma run_exact (state : TradingState) (p1 p2 : Z) (rt : Runtime)
    (ls : list string) :
  stdout rt = Open ls ->
  Trader.run state (registry p1 p2, rt) =
  (Returned (run_result state, 1, EmptyString),
   (registry
      (position_after state (keys (order_depths state)) "RAINFOREST_RESIN" p1)
      (position_after state (keys (order_depths state)) "KELP" p2),
    {| logger := with_logs (logger rt) EmptyString;
       stdout := Open (ls ++ [run_line state (logger rt)]);
       calls := calls rt ++
                flat_map (symbol_calls state) (keys (order_depths state)) ++
                [LoggerFlush] |})).
Proof.
  intros Hout. rewrite run_unfold.
  rewrite (bind_returned _ _ _ _ _
             (run_loop_exact state (keys (order_depths state))
                (fun _ H => H) [] p1 p2 rt)).
  fold (run_result state). fold (run_text state).
  unfold bind at 1. unfold on_snd at 1. cbn [fst snd].
  rewrite (flush_open_line state (run_result state) 1 EmptyString
             (advanced rt (run_text state)
                (flat_map (symbol_calls state) (keys (order_depths state))))
             ls Hout).
  unfold ret, run_line, advanced, with_logs.
  cbn [logger stdout calls logs max_log_length].
  rewrite <- app_assoc. reflexivity.
Qed.

(** [Trader.run] on a closed standard output, in full. *)
Lemma run_closed_exact (state : TradingState) (p1 p2 : Z) (rt : Runtime) :
  stdout rt = Closed ->
  Trader.run state (registry p1 p2, rt) =
  (Raised (ValueError "I/O operation on closed file."),
   (registry
      (position_after state (keys (order_depths state)) "RAINFOREST_RESIN" p1)
      (position_after state (keys (order_depths state)) "KELP" p2),
    {| logger := with_logs (logger rt) (logs (logger rt) ++ run_text state);
       stdout := Closed;
       calls := calls rt ++
                flat_map (symbol_calls state) (keys (order_depths state)) ++
                [LoggerFlush] |})).
Proof.
  intros Hout. rewrite run_unfold.
  rewrite (bind_returned _ _ _ _ _
             (run_loop_exact state (keys (order_depths state))
                (fun _ H => H) [] p1 p2 rt)).
  fold (run_result state). fold (run_text state).
  unfold bind at 1. unfold on_snd at 1. cbn [fst snd].
  rewrite flush_closed by exact Hout.
  unfold advanced, with_logs.
  cbn [logger stdout calls logs max_log_length].
  rewrite <- app_assoc, Hout. reflexivity.
Qed.

Lemma position_after_in (state : TradingState) (symbols : list string)
    (symbol : string) (p : Z) :
  (In symbol symbols ->
   position_after state symbols symbol p = refreshed state symbol) /\
  (~ In symbol symbols -> position_after state symbols symbol p = p).
Proof.
  unfold position_after.
  destruct (existsb (String.eqb symbol) symbols) eqn:E; split; intros H;
    try reflexivity.
  - exfalso. apply existsb_exists in E. destruct E as (x & Hx & Ex).
    apply String.eqb_eq in Ex. congruence.
  - exfalso.
    assert (existsb (String.eqb symbol) symbols = true)
      by (apply existsb_exists; exists symbol; split;
          [exact H | apply String.eqb_refl]).
    congruence.
Qed.

(** After [Trader.run], a policy whose symbol has an order book in the
    tick holds the tick's position for it (0 when the tick lists none),
    whatever it held before, while a policy whose symbol has no book is
    not called and keeps its previous position; limits and symbols never
    change. *)
Theorem run_refreshes_positions (state : TradingState) (p1 p2 : Z)
    (rt : Runtime) (ls : list string) :
  stdout rt = Open ls ->
  exists out q1 q2 rt',
    Trader.run state (registry p1 p2, rt) =
    (Returned out, (registry q1 q2, rt')) /\
    (In "RAINFOREST_RESIN" (keys (order_depths state)) ->
     q1 = refreshed state "RAINFOREST_RESIN") /\
    (~ In "RAINFOREST_RESIN" (keys (order_depths state)) -> q1 = p1) /\
    (In "KELP" (keys (order_depths state)) -> q2 = refreshed state "KELP") /\
    (~ In "KELP" (keys (order_depths state)) -> q2 = p2).
Proof.
  intros Hout. do 4 eexists. split; [apply (run_exact _ _ _ _ _ Hout)|].
  pose proof (position_after_in state (keys (order_depths state))
                "RAINFOREST_RESIN" p1) as [H1 H2].
  pose proof (position_after_in state (keys (order_depths state))
                "KELP" p2) as [H3 H4].
  auto.
Qed.

Lemma run_refreshes_positions_witness :
  exists out q1 q2 rt',
    Trader.run
      (tick [("RAINFOREST_RESIN", sample_depth)] [("KELP", 7)])
      (registry 12 (-5), runtime_with EmptyString (Open [])) =
    (Returned out, (registry q1 q2, rt')) /\
    q1 = 0 /\ q2 = -5.
Proof.
  destruct (run_refreshes_positions
              (tick [("RAINFOREST_RESIN", sample_depth)] [("KELP", 7)])
              12 (-5) (runtime_with EmptyString (Open [])) [] eq_refl)
    as (out & q1 & q2 & rt' & E & H1 & _ & _ & H4).
  exists out, q1, q2, rt'. split; [exact E|]. split.
  - rewrite H1; [reflexivity | now left].
  - apply H4. intros [H|[]]. discriminate H.
Defined.

(** The outcome of [Trader.run] and the line it writes depend only on
    the tick and on the logger object: not on the positions the policies
    held, on what was written before, or on earlier calls. *)
Theorem run_depends_on_tick_only (state : TradingState) (p1 p2 q1 q2 : Z)
    (rt1 rt2 : Runtime) (ls1 ls2 : list string) :
  stdout rt1 = Open ls1 -> stdout rt2 = Open ls2 ->
  logger rt1 = logger rt2 ->
  exists out line s1 s2,
    Trader.run state (registry p1 p2, rt1) = (Returned out, s1) /\
    Trader.run state (registry q1 q2, rt2) = (Returned out, s2) /\
    stdout (snd s1) = Open (ls1 ++ [line]) /\
    stdout (snd s2) = Open (ls2 ++ [line]) /\
    logger (snd s1) = logger (snd s2).
Proof.
  intros H1 H2 Hl.
  rewrite (run_exact state p1 p2 rt1 ls1 H1).
  rewrite (run_exact state q1 q2 rt2 ls2 H2).
  rewrite Hl. do 4 eexists. repeat split.
Qed.

Lemma run_depends_on_tick_only_witness :
  exists out line s1 s2,
    Trader.run sample_tick
      (registry 0 0, runtime_with EmptyString (Open [])) = (Returned out, s1) /\
    Trader.run sample_tick
      (registry 31 (-50),
       {| logger := Logger.init; stdout := Open ["earlier"];
          calls := [LoggerFlush] |}) = (Returned out, s2) /\
    stdout (snd s1) = Open ([] ++ [line]) /\
    stdout (snd s2) = Open (["earlier"] ++ [line]).
Proof.
  destruct (run_depends_on_tick_only sample_tick 0 0 31 (-50)
              (runtime_with EmptyString (Open []))
              {| logger := Logger.init; stdout := Open ["earlier"];
                 calls := [LoggerFlush] |} [] ["earlier"]
              eq_refl eq_refl eq_refl)
    as (out & line & s1 & s2 & E1 & E2 & O1 & O2 & _).
  exists out, line, s1, s2. auto.
Defined.

(** Two ticks in a row: each call writes one line, and the second call
    returns and writes exactly what a process with an empty buffer and
    arbitrary positions would for the second tick; nothing of the first
    tick leaks into it. *)
Theorem run_twice (state1 state2 : TradingState) (p1 p2 : Z)
    (rt : Runtime) (ls : list string) :
  stdout rt = Open ls ->
  exists out l1 l2 s,
    (Trader.run state1 ;; Trader.run state2) (registry p1 p2, rt) =
    (Returned out, s) /\
    stdout (snd s) = Open (ls ++ [l1; l2]) /\
    logs (logger (snd s)) = EmptyString /\
    forall q1 q2 cs,
    exists s0,
      Trader.run state2
        (registry q1 q2,
         {| logger := with_logs (logger rt) EmptyString;
            stdout := Open []; calls := cs |}) = (Returned out, s0) /\
      stdout (snd s0) = Open [l2].
Proof.
  intros Hout.
  rewrite (bind_returned _ _ _ _ _ (run_exact state1 p1 p2 rt ls Hout)).
  erewrite run_exact by reflexivity.
  do 4 eexists. split; [reflexivity|]. cbn [snd stdout logger logs with_logs].
  split; [now rewrite <- app_assoc|]. split; [reflexivity|].
  intros q1 q2 cs. erewrite run_exact by reflexivity.
  eexists. split; reflexivity.
Qed.

Lemma run_twice_witness :
  exists out l1 l2 s,
    (Trader.run sample_tick ;;
     Trader.run (tick [("KELP", sample_depth)] []))
      (registry 0 0, runtime_with EmptyString (Open [])) = (Returned out, s) /\
    stdout (snd s) = Open ([] ++ [l1; l2]) /\
    logs (logger (snd s)) = EmptyString.
Proof.
  destruct (run_twice sample_tick (tick [("KELP", sample_depth)] []) 0 0
              (runtime_with EmptyString (Open [])) [] eq_refl)
    as (out & l1 & l2 & s & E & Ho & Hl & _).
  exists out, l1, l2, s. auto.
Defined.

(** With standard output closed, [Trader.run] raises in [flush] after
    every policy has been called: positions are refreshed as usual, and
    the debug text of the tick, at least 21 characters per symbol, stays
    in the buffer behind what was there. *)
Theorem run_closed_stdout (state : TradingState) (p1 p2 : Z) (rt : Runtime) :
  stdout rt = Closed ->
  exists q1 q2 rt',
    Trader.run state (registry p1 p2, rt) =
    (Raised (ValueError "I/O operation on closed file."),
     (registry q1 q2, rt')) /\
    logs (logger rt') = logs (logger rt) ++ run_text state /\
    len (logs (logger rt)) +
      21 * Z.of_nat (List.length (keys (order_depths state)))
      <= len (logs (logger rt')) /\
    (In "RAINFOREST_RESIN" (keys (order_depths state)) ->
     q1 = refreshed state "RAINFOREST_RESIN") /\
    (In "KELP" (keys (order_depths state)) -> q2 = refreshed state "KELP").
Proof.
  intros Hout. do 3 eexists.
  split; [apply (run_closed_exact _ _ _ _ Hout)|].
  cbn [logger logs with_logs]. split; [reflexivity|]. split.
  - rewrite len_append. unfold run_text.
    assert (H : forall ks,
              21 * Z.of_nat (List.length ks)
              <= len (join_lines (map (symbol_text state) ks))).
    { induction ks as [|k ks IH];
        cbn [map join_lines fold_right List.length]; [vm_compute; discriminate|].
      fold (join_lines (map (symbol_text state) ks)).
      rewrite len_append. unfold symbol_text at 1.
      rewrite !len_append.
      change (len "Processing product: ") with 20.
      change (len newline) with 1.
      pose proof (len_nonneg k).
      pose proof (len_nonneg (if registered k
                              then join_lines
                                     (map order_line (decided state k))
                              else EmptyString)).
      lia. }
    specialize (H (keys (order_depths state))). lia.
  - split.
    + apply (proj1 (position_after_in state _ "RAINFOREST_RESIN" p1)).
    + apply (proj1 (position_after_in state _ "KELP" p2)).
Qed.

Lemma run_closed_stdout_witness :
  exists q1 q2 rt',
    Trader.run sample_tick (registry 0 0, runtime_with "stale" Closed) =
    (Raised (ValueError "I/O operation on closed file."),
     (registry q1 q2, rt')) /\
    len "stale" + 21 * 3 <= len (logs (logger rt')).
Proof.
  destruct (run_closed_stdout sample_tick 0 0 (runtime_with "stale" Closed)
              eq_refl) as (q1 & q2 & rt' & E & _ & Hlen & _).
  exists q1, q2, rt'. split; [exact E | exact Hlen].
Defined.

Lemma run_result_entries (state : TradingState) :
  dict_ok (order_depths state) ->
  run_result state =
  map (fun symbol => (symbol, decided state symbol))
    (filter registered (keys (order_depths state))).
Proof.
  intros Hok. unfold run_result.
  now rewrite (fold_registered (decided state)) by exact Hok.
Qed.

Lemma run_result_in (state : TradingState) (symbol : string)
    (orders : list Order) :
  dict_ok (order_depths state) ->
  In (symbol, orders) (run_result state) ->
  orders = decided state symbol /\
  In symbol (keys (order_depths state)) /\
  (symbol = "RAINFOREST_RESIN" \/ symbol = "KELP").
Proof.
  intros Hok Hin. rewrite run_result_entries in Hin by exact Hok.
  apply in_map_iff in Hin. destruct Hin as (k & E & Hk).
  injection E as <- <-. apply filter_In in Hk. destruct Hk as [Hk Hreg].
  split; [reflexivity|]. split; [exact Hk|].
  destruct (registered_cases k) as [[-> _]|[[-> _]|(_ & _ & H & _)]];
    [now left | now right | congruence].
Qed.

(** The limit guarantee at the level of [Trader.run]: for every entry of
    the returned orders map whose symbol has its position within 50 in
    the tick and a correctly signed book, filling all its buys or all its
    sells keeps the position within [[-50, 50]]. *)
Theorem run_orders_within_limits (state : TradingState) (p1 p2 : Z)
    (rt : Runtime) (ls : list string) :
  dict_ok (order_depths state) ->
  stdout rt = Open ls ->
  exists result s',
    Trader.run state (registry p1 p2, rt) =
    (Returned (result, 1, EmptyString), s') /\
    forall symbol orders od,
      In (symbol, orders) result ->
      dict_get String.eqb (order_depths state) symbol = Some od ->
      signed_book od ->
      -50 <= refreshed state symbol <= 50 ->
      refreshed state symbol + buy_total orders <= 50 /\
      -50 <= refreshed state symbol + sell_total orders.
Proof.
  intros Hok Hout. do 2 eexists.
  split; [apply (run_exact _ _ _ _ _ Hout)|].
  intros symbol orders od Hin Hod Hbook Hpos.
  destruct (run_result_in state symbol orders Hok Hin) as (-> & _ & [->| ->]).
  - rewrite (decided_resin state od Hod).
    rewrite buy_total_app, sell_total_app.
    pose proof (buy_leg_bounds
                  (resin_at (refreshed state "RAINFOREST_RESIN")) od
                  Hbook Hpos).
    pose proof (sell_leg_bounds
                  (resin_at (refreshed state "RAINFOREST_RESIN")) od
                  Hbook Hpos).
    cbn [resin_at Product.limit Product.position] in *. lia.
  - rewrite decided_kelp. cbn [buy_total sell_total fold_right]. lia.
Qed.

Lemma run_orders_within_limits_witness :
  exists result s',
    Trader.run sample_tick
      (registry 0 0, runtime_with EmptyString (Open [])) =
    (Returned (result, 1, EmptyString), s') /\
    forall orders,
      In ("RAINFOREST_RESIN", orders) result ->
      48 + buy_total orders <= 50 /\ -50 <= 48 + sell_total orders.
Proof.
  assert (Hok : dict_ok (order_depths sample_tick)).
  { unfold dict_ok. cbn. repeat constructor; cbn; intuition discriminate. }
  destruct (run_orders_within_limits sample_tick 0 0
              (runtime_with EmptyString (Open [])) [] Hok eq_refl)
    as (result & s' & E & H).
  exists result, s'. split; [exact E|]. intros orders Hin.
  apply (H "RAINFOREST_RESIN" orders sample_depth Hin eq_refl).
  - split; intros p q Hq; cbn in Hq;
      repeat match goal with
             | H : _ \/ _ |- _ => destruct H as [H|H]
             | H : False |- _ => destruct H
             | H : (_, _) = (_, _) |- _ => injection H as <- <-
             end; lia.
  - vm_compute. split; congruence.
Defined.

Lemma length_decided_resin (state : TradingState) :
  (List.length (decided state "RAINFOREST_RESIN") <= 2)%nat /\
  forall o, In o (decided state "RAINFOREST_RESIN") ->
            order_symbol o = "RAINFOREST_RESIN".
Proof.
  destruct (dict_get String.eqb (order_depths state) "RAINFOREST_RESIN")
    as [od|] eqn:Hod.
  - rewrite (decided_resin state od Hod).
    destruct (buy_leg_cases (resin_at (refreshed state "RAINFOREST_RESIN")) od)
      as [[Eb _]|(a & v & _ & _ & _ & Eb)];
    destruct (sell_leg_cases (resin_at (refreshed state "RAINFOREST_RESIN")) od)
      as [[Es _]|(b & w & _ & _ & _ & Es)];
    rewrite Eb, Es; cbn [app List.length]; (split; [lia|]);
      intros o Ho; cbn [In] in Ho;
      repeat match goal with
             | H : _ \/ _ |- _ => destruct H as [H|H]
             | H : False |- _ => destruct H
             end; subst o; reflexivity.
  - assert (E : decided state "RAINFOREST_RESIN" = []).
    { unfold decided.
      change (dict_get String.eqb Trader.products "RAINFOREST_RESIN")
        with (Some (resin_at 0)).
      cbv beta iota. rewrite call_trade_resin.
      now rewrite (resin_trade_raises state (resin_at 0) _ Hod). }
    rewrite E. split; [cbn; lia | intros o []].
Qed.

Lemma rows_without_resin (state : TradingState) (symbols : list string) :
  ~ In "RAINFOREST_RESIN" symbols ->
  List.concat (map (decided state) (filter registered symbols)) = [].
Proof.
  induction symbols as [|k symbols IH]; intros H; [reflexivity|].
  cbn [filter].
  assert (Hk : decided state k = []).
  { destruct (registered_cases k) as [[-> _]|[[-> _]|(_ & _ & Hr & _)]].
    - exfalso. apply H. now left.
    - apply decided_kelp.
    - now apply decided_unregistered. }
  assert (Hrest : ~ In "RAINFOREST_RESIN" symbols)
    by (intros Hin; apply H; now right).
  destruct (registered k); cbn [map List.concat];
    rewrite ?Hk, IH by exact Hrest; reflexivity.
Qed.

Lemma rows_at_most_two (state : TradingState) (symbols : list string) :
  NoDup symbols ->
  (List.length
     (List.concat (map (decided state) (filter registered symbols))) <= 2)%nat.
Proof.
  induction 1 as [|k symbols Hk Hnd IH]; [cbn; lia|].
  cbn [filter].
  destruct (registered_cases k) as [[-> Hr]|[[-> Hr]|(_ & _ & Hr & _)]];
    rewrite Hr; cbn [map List.concat].
  - rewrite (rows_without_resin state symbols Hk), app_nil_r.
    apply length_decided_resin.
  - rewrite decided_kelp. exact IH.
  - exact IH.
Qed.

(** [Trader.run] returns at most two orders per tick, all of them for
    RAINFOREST_RESIN; the KELP entry is always empty, and no other
    symbol has an entry. *)
Theorem run_only_resin_orders (state : TradingState) (p1 p2 : Z)
    (rt : Runtime) (ls : list string) :
  dict_ok (order_depths state) ->
  stdout rt = Open ls ->
  exists result s',
    Trader.run state (registry p1 p2, rt) =
    (Returned (result, 1, EmptyString), s') /\
    (List.length (List.concat (values result)) <= 2)%nat /\
    (List.length (Logger.compress_orders result) <= 2)%nat /\
    forall symbol orders,
      In (symbol, orders) result ->
      (symbol = "KELP" /\ orders = []) \/
      (symbol = "RAINFOREST_RESIN" /\
       forall o, In o orders -> order_symbol o = "RAINFOREST_RESIN").
Proof.
  intros Hok Hout. do 2 eexists.
  split; [apply (run_exact _ _ _ _ _ Hout)|].
  assert (Hlen : (List.length (List.concat (values (run_result state))) <= 2)
                 %nat).
  { rewrite run_result_entries by exact Hok.
    unfold values. rewrite map_map. cbn [snd].
    apply rows_at_most_two. exact Hok. }
  split; [exact Hlen|]. split.
  - rewrite compress_orders_rows, length_map. exact Hlen.
  - intros symbol orders Hin.
    destruct (run_result_in state symbol orders Hok Hin) as (-> & _ & [->| ->]).
    + right. split; [reflexivity|]. apply length_decided_resin.
    + left. split; [reflexivity | apply decided_kelp].
Qed.

Lemma run_only_resin_orders_witness :
  exists result s',
    Trader.run sample_tick
      (registry 0 0, runtime_with EmptyString (Open [])) =
    (Returned (result, 1, EmptyString), s') /\
    (List.length (Logger.compress_orders result) <= 2)%nat.
Proof.
  assert (Hok : dict_ok (order_depths sample_tick)).
  { unfold dict_ok. cbn. repeat constructor; cbn; intuition discriminate. }
  destruct (run_only_resin_orders sample_tick 0 0
              (runtime_with EmptyString (Open [])) [] Hok eq_refl)
    as (result & s' & E & _ & H & _).
  exists result, s'. split; [exact E | exact H].
Defined.

(** ** Accounting of the line *)

(** The length of the line [flush] writes is the baseline plus the
    escaped sizes of the three truncated fields: the fields are budgeted
    by their raw length but paid for by their escaped length. *)
Theorem flush_line_length (state : TradingState)
    (orders : dict Symbol (list Order)) (conversions : Z)
    (trader_data : string) (self : LoggerObj) :
  let share :=
    (max_log_length self - base_length state orders conversions) / 3 in
  len (flush_line state orders conversions trader_data self) =
  base_length state orders conversions
  + len (escape (Logger.truncate (traderData state) share))
  + len (escape (Logger.truncate trader_data share))
  + len (escape (Logger.truncate (logs self) share)).
Proof.
  intros share. unfold flush_line. fold share. now rewrite len_envelope.
Qed.
